(** * MinMaxNormalizer

    A shallow embedding of
    [tensortrade/features/scalers/min_max_normalizer.py]: the feature
    transformer that rescales table columns with externally supplied
    bounds ([transform]) and describes the effect on the observation space
    ([transform_space]).

    The file has two layers.  The first reads tables and space descriptors
    as values, the second ([Module Ref]) places them in a store of objects
    addressed by references, so that sharing between the input descriptor
    and its shallow copy, and the identity of returned objects, can be
    stated.  A refinement lemma relates the two. *)

From Stdlib Require Import ZArith List String Lia PeanoNat.
From Stdlib Require Import PrimFloat FloatOps SpecFloat DecimalString.
Import ListNotations.

(** ** Exceptions and results *)

(** The exceptions the two methods can raise.  None is caught by the
    source, so a raised exception is the outcome of the call. *)
Inductive exn : Type :=
| KeyError (key : string)        (* [X[column]] on an absent column *)
| IndexError (index : nat)       (* [low[idx]] beyond the array *)
| ZeroDivisionError              (* [1/len(...)] on an empty column *)
| TypeError                      (* [len(shape_x)] on an int *)
| ValueError                     (* unpacking an empty shape *)
| AttributeError.                (* attribute access on the wrong kind of object *)

Inductive result (A : Type) : Type :=
| Ok (a : A)
| Raise (e : exn).

Arguments Ok {A} a.
Arguments Raise {A} e.

Definition bind {A B : Type} (m : result A) (k : A -> result B) : result B :=
  match m with
  | Ok a => k a
  | Raise e => Raise e
  end.

Notation "x <- m ;; k" := (bind m (fun x => k))
  (at level 61, m at next level, right associativity).

(** ** Numbers *)

(** Table cells and bounds are binary64 floats (NumPy's float64).  The two
    configuration numbers are Python scalars: an [int] (the defaults [0] and
    [1]) or a [float]. *)
Inductive pynum : Type :=
| PyInt (z : Z)
| PyFloat (f : float).

(** Conversion of an integer to binary64, rounded to nearest even.
    (CPython refuses integers beyond the binary64 range; here they round to
    infinity.) *)
Definition float_of_int (z : Z) : float :=
  SF2Prim (binary_normalize prec emax z 0 false).

Definition as_float (x : pynum) : float :=
  match x with
  | PyInt z => float_of_int z
  | PyFloat f => f
  end.

(** [x - y] and [x + y] on Python scalars: exact on two ints, binary64
    otherwise. *)
Definition py_sub (x y : pynum) : pynum :=
  match x, y with
  | PyInt a, PyInt b => PyInt (a - b)
  | _, _ => PyFloat (PrimFloat.sub (as_float x) (as_float y))
  end.

Definition py_add (x y : pynum) : pynum :=
  match x, y with
  | PyInt a, PyInt b => PyInt (a + b)
  | _, _ => PyFloat (PrimFloat.add (as_float x) (as_float y))
  end.

(** [a / b] on two Python ints: a float, or [ZeroDivisionError].  For
    operands below 2^53 (every row count) the conversions are exact and the
    quotient is rounded once, as CPython does. *)
Definition int_truediv (a b : Z) : result float :=
  if (b =? 0)%Z then Raise ZeroDivisionError
  else Ok (PrimFloat.div (float_of_int a) (float_of_int b)).

(** [len(x)] for an int [x]: ints have no length. *)
Definition len_int (x : Z) : result nat := Raise TypeError.

(** ** Tables *)

Definition Series : Type := list float.

(** A DataFrame: the length of its index and its columns in order.  A
    name is looked up at its first occurrence; pandas tables with a name
    used twice are left out. *)
Record DataFrame : Type := mkDataFrame {
  index_len : nat;
  data : list (string * Series)
}.

(** [list(X.columns)] *)
Definition df_columns (X : DataFrame) : list string := map fst (data X).

Fixpoint lookup (c : string) (d : list (string * Series)) : option Series :=
  match d with
  | [] => None
  | (k, s) :: d' => if String.eqb k c then Some s else lookup c d'
  end.

(** [X[column]] *)
Definition getitem (X : DataFrame) (column : string) : result Series :=
  match lookup column (data X) with
  | Some s => Ok s
  | None => Raise (KeyError column)
  end.

(** What [normalized_column] holds: a scalar in the degenerate branch, a
    Series otherwise. *)
Inductive colvalue : Type :=
| Scalar (f : float)
| Column (s : Series).

Fixpoint set_col (c : string) (s : Series) (d : list (string * Series))
  : list (string * Series) :=
  match d with
  | [] => [(c, s)]
  | (k, v) :: d' =>
      if String.eqb k c then (k, s) :: d' else (k, v) :: set_col c s d'
  end.

(** A scalar is broadcast over the index. *)
Definition broadcast (X : DataFrame) (v : colvalue) : Series :=
  match v with
  | Scalar f => repeat f (index_len X)
  | Column s => s
  end.

(** [X.assign] with the one keyword [c = v]: a new table, with column [c] replaced where it
    stands or added last. *)
Definition assign (X : DataFrame) (c : string) (v : colvalue) : DataFrame :=
  {| index_len := index_len X; data := set_col c (broadcast X v) (data X) |}.

(** Every column spans the index. *)
Definition well_formed (X : DataFrame) : Prop :=
  Forall (fun kv => List.length (snd kv) = index_len X) (data X).

(** ** Space descriptors *)

Record Space : Type := mkSpace {
  shape : list Z;
  low : list float;
  high : list float
}.

(** [a[idx]] on a one-dimensional array. *)
Definition item (a : list float) (idx : nat) : result float :=
  match nth_error a idx with
  | Some x => Ok x
  | None => Raise (IndexError idx)
  end.

(** ** The transformer *)

(** [columns] is what the base class [FeatureTransformer] stores: a list of
    names or [None]. *)
Record MinMaxNormalizer : Type := mkNormalizer {
  columns : option (list string);
  inplace : bool;
  feature_min : pynum;
  feature_max : pynum
}.

Definition set_columns (self : MinMaxNormalizer) (cs : list string)
  : MinMaxNormalizer :=
  {| columns := Some cs; inplace := inplace self;
     feature_min := feature_min self; feature_max := feature_max self |}.

(** [(self._feature_max - self._feature_min) + self._feature_min] *)
Definition scale (self : MinMaxNormalizer) : pynum :=
  py_add (py_sub (feature_max self) (feature_min self)) (feature_min self).

(** What [self.columns or range(len(shape_x))] evaluates to. *)
Inductive tracked : Type :=
| Names (cs : list string)
| Range (n : nat).

Definition tracked_len (t : tracked) : nat :=
  match t with
  | Names cs => List.length cs
  | Range n => n
  end.

Definition columns_or_range (self : MinMaxNormalizer) (shape_x : Z)
  : result tracked :=
  match columns self with
  | Some (c :: cs) => Ok (Names (c :: cs))
  | _ => n <- len_int shape_x ;; Ok (Range n)
  end.

(** One round of the loop of [transform_space]: both arrays grow by one. *)
Definition append_bounds (self : MinMaxNormalizer) (sp : Space) : Space :=
  {| shape := shape sp;
     low := low sp ++ [as_float (feature_min self)];
     high := high sp ++ [as_float (feature_max self)] |}.

Fixpoint for_each (n : nat) (f : Space -> Space) (sp : Space) : Space :=
  match n with
  | O => sp
  | S n' => for_each n' f (f sp)
  end.

Definition transform_space (self : MinMaxNormalizer) (input_space : Space)
    (column_names : list string) : result Space :=
  if inplace self then Ok input_space
  else
    let output_space := input_space in
    match shape input_space with
    | [] => Raise ValueError
    | shape_x :: shape_y =>
        cols <- columns_or_range self shape_x ;;
        let output_space :=
          {| shape := (shape_x + Z.of_nat (tracked_len cols))%Z :: shape_y;
             low := low output_space; high := high output_space |} in
        Ok (for_each (tracked_len cols) (append_bounds self) output_space)
    end.

Section Transform.

(** [repr] of a float, as ['{}'.format] prints one.  It belongs to
    CPython, not to this repository. *)
Variable float_repr : float -> string.

Definition format_num (x : pynum) : string :=
  match x with
  | PyInt z => NilZero.string_of_int (Z.to_int z)
  | PyFloat f => float_repr f
  end.

(** ['{}_minmax_{}_{}'.format(column, self._feature_min, self._feature_max)] *)
Definition minmax_name (self : MinMaxNormalizer) (column : string) : string :=
  (column ++ "_minmax_" ++ format_num (feature_min self)
          ++ "_" ++ format_num (feature_max self))%string.

(** The name the loop assigns to. *)
Definition destination (self : MinMaxNormalizer) (column : string) : string :=
  if inplace self then column else minmax_name self column.

(** The two branches on [high - low == 0]. *)
Definition normalized_column (self : MinMaxNormalizer) (X : DataFrame)
    (column : string) (lo hi : float) : result colvalue :=
  if PrimFloat.eqb (PrimFloat.sub hi lo) 0%float then
    s <- getitem X column ;;
    q <- int_truediv 1 (Z.of_nat (List.length s)) ;;
    Ok (Scalar (PrimFloat.mul q (as_float (scale self))))
  else
    s <- getitem X column ;;
    Ok (Column (map (fun v =>
          PrimFloat.mul (PrimFloat.div (PrimFloat.sub v lo) (PrimFloat.sub hi lo))
                        (as_float (scale self))) s)).

(** The body of the loop of [transform]. *)
Definition transform_body (self : MinMaxNormalizer) (input_space : Space)
    (idx : nat) (column : string) (X : DataFrame) : result DataFrame :=
  lo <- item (low input_space) idx ;;
  hi <- item (high input_space) idx ;;
  normalized <- normalized_column self X column lo hi ;;
  Ok (assign X (destination self column) normalized).

(** [for idx, column in enumerate(...)], from position [idx] on. *)
Fixpoint transform_loop (self : MinMaxNormalizer) (input_space : Space)
    (idx : nat) (cols : list string) (X : DataFrame) : result DataFrame :=
  match cols with
  | [] => Ok X
  | column :: rest =>
      X' <- transform_body self input_space idx column X ;;
      transform_loop self input_space (S idx) rest X'
  end.

(** The lazy resolution of [self.columns]. *)
Definition resolve (self : MinMaxNormalizer) (X : DataFrame)
  : MinMaxNormalizer :=
  match columns self with
  | None => set_columns self (df_columns X)
  | Some _ => self
  end.

Definition tracked_columns (self : MinMaxNormalizer) : list string :=
  match columns self with
  | Some cs => cs
  | None => []
  end.

(** [transform] returns the transformer as the call leaves it, and the
    table or the exception. *)
Definition transform (self : MinMaxNormalizer) (X : DataFrame)
    (input_space : Space) : MinMaxNormalizer * result DataFrame :=
  let self := resolve self X in
  (self, transform_loop self input_space 0 (tracked_columns self) X).

End Transform.

(** ** The same two methods over a store of objects *)

(** Python passes references.  Here a descriptor is an object whose [low]
    and [high] attributes refer to arrays, [copy] is shallow, [np.append]
    and [assign] build new objects, and attribute assignment updates the
    object in place. *)
Module Ref.

Definition ref : Type := nat.

Inductive object : Type :=
| Ndarray (a : list float)
| SpaceObj (shape : list Z) (low high : ref)
| Frame (X : DataFrame).

Definition store : Type := list object.

(** Computations that read and write the store and may raise. *)
Definition M (A : Type) : Type := store -> result A * store.

Definition ret {A : Type} (a : A) : M A := fun s => (Ok a, s).

Definition raise {A : Type} (e : exn) : M A := fun s => (Raise e, s).

Definition lift {A : Type} (r : result A) : M A := fun s => (r, s).

Definition bindM {A B : Type} (m : M A) (k : A -> M B) : M B :=
  fun s =>
    match m s with
    | (Ok a, s') => k a s'
    | (Raise e, s') => (Raise e, s')
    end.

Notation "'do' x <- m ; k" := (bindM m (fun x => k))
  (at level 10, x name, m at level 100, k at level 200).

Definition deref (r : ref) : M object :=
  fun s =>
    match nth_error s r with
    | Some o => (Ok o, s)
    | None => (Raise AttributeError, s)
    end.

Definition alloc (o : object) : M ref :=
  fun s => (Ok (List.length s), s ++ [o]).

Fixpoint update (r : ref) (o : object) (s : store) : store :=
  match s, r with
  | [], _ => []
  | _ :: s', O => o :: s'
  | x :: s', S r' => x :: update r' o s'
  end.

Definition put (r : ref) (o : object) : M unit :=
  fun s => (Ok tt, update r o s).

(** Attribute access on a descriptor. *)
Definition get_shape (r : ref) : M (list Z) :=
  do o <- deref r;
  match o with
  | SpaceObj sh _ _ => ret sh
  | _ => raise AttributeError
  end.

Definition get_low (r : ref) : M ref :=
  do o <- deref r;
  match o with
  | SpaceObj _ l _ => ret l
  | _ => raise AttributeError
  end.

Definition get_high (r : ref) : M ref :=
  do o <- deref r;
  match o with
  | SpaceObj _ _ h => ret h
  | _ => raise AttributeError
  end.

Definition set_shape (r : ref) (sh : list Z) : M unit :=
  do o <- deref r;
  match o with
  | SpaceObj _ l h => put r (SpaceObj sh l h)
  | _ => raise AttributeError
  end.

Definition set_low (r : ref) (l : ref) : M unit :=
  do o <- deref r;
  match o with
  | SpaceObj sh _ h => put r (SpaceObj sh l h)
  | _ => raise AttributeError
  end.

Definition set_high (r : ref) (h : ref) : M unit :=
  do o <- deref r;
  match o with
  | SpaceObj sh l _ => put r (SpaceObj sh l h)
  | _ => raise AttributeError
  end.

Definition get_array (r : ref) : M (list float) :=
  do o <- deref r;
  match o with
  | Ndarray a => ret a
  | _ => raise AttributeError
  end.

Definition get_frame (r : ref) : M DataFrame :=
  do o <- deref r;
  match o with
  | Frame X => ret X
  | _ => raise AttributeError
  end.

(** [copy(x)]: a new object with the attributes of [x]; the arrays of a
    descriptor are shared with the original. *)
Definition copy (r : ref) : M ref :=
  do o <- deref r;
  alloc o.

(** [np.append(a, v)]: always a new array. *)
Definition np_append (a : ref) (v : float) : M ref :=
  do arr <- get_array a;
  alloc (Ndarray (arr ++ [v])).

(** The body of the loop of [transform_space]. *)
Definition append_bounds (self : MinMaxNormalizer) (output_space : ref)
  : M unit :=
  do l <- get_low output_space;
  do l' <- np_append l (as_float (feature_min self));
  do _ <- set_low output_space l';
  do h <- get_high output_space;
  do h' <- np_append h (as_float (feature_max self));
  set_high output_space h'.

Fixpoint for_each (n : nat) (body : M unit) : M unit :=
  match n with
  | O => ret tt
  | S n' => do _ <- body; for_each n' body
  end.

Definition transform_space (self : MinMaxNormalizer) (input_space : ref)
    (column_names : list string) : M ref :=
  if inplace self then ret input_space
  else
    do output_space <- copy input_space;
    do sh <- get_shape input_space;
    match sh with
    | [] => raise ValueError
    | shape_x :: shape_y =>
        do cols <- lift (columns_or_range self shape_x);
        do _ <- set_shape output_space
                  ((shape_x + Z.of_nat (tracked_len cols))%Z :: shape_y);
        do _ <- for_each (tracked_len cols) (append_bounds self output_space);
        ret output_space
    end.

Section Transform.

Variable float_repr : float -> string.

(** [input_space.low[idx]] and [input_space.high[idx]] *)
Definition bound (get : ref -> M ref) (input_space : ref) (idx : nat)
  : M float :=
  do a <- get input_space;
  do arr <- get_array a;
  lift (item arr idx).

Definition transform_body (self : MinMaxNormalizer) (input_space : ref)
    (idx : nat) (column : string) (X : ref) : M ref :=
  do lo <- bound get_low input_space idx;
  do hi <- bound get_high input_space idx;
  do df <- get_frame X;
  do normalized <- lift (normalized_column self df column lo hi);
  alloc (Frame (assign df (destination float_repr self column) normalized)).

Fixpoint transform_loop (self : MinMaxNormalizer) (input_space : ref)
    (idx : nat) (cols : list string) (X : ref) : M ref :=
  match cols with
  | [] => ret X
  | column :: rest =>
      do X' <- transform_body self input_space idx column X;
      transform_loop self input_space (S idx) rest X'
  end.

Definition transform (self : MinMaxNormalizer) (X : ref) (input_space : ref)
  : store -> MinMaxNormalizer * (result ref * store) :=
  fun s =>
    match columns self with
    | Some cs => (self, transform_loop self input_space 0 cs X s)
    | None =>
        match get_frame X s with
        | (Ok df, s') =>
            let self := set_columns self (df_columns df) in
            (self, transform_loop self input_space 0 (df_columns df) X s')
        | (Raise e, s') => (self, (Raise e, s'))
        end
    end.

End Transform.

End Ref.

(** ** Reading the store *)

(** The descriptor at [r] has the shape of [sp], and its two arrays hold
    the bounds of [sp]. *)
Definition space_at (s : Ref.store) (r : Ref.ref) (sp : Space) : Prop :=
  exists l h,
    nth_error s r = Some (Ref.SpaceObj (shape sp) l h) /\
    nth_error s l = Some (Ref.Ndarray (low sp)) /\
    nth_error s h = Some (Ref.Ndarray (high sp)).

(** The table at [r]. *)
Definition frame_at (s : Ref.store) (r : Ref.ref) (X : DataFrame) : Prop :=
  nth_error s r = Some (Ref.Frame X).

(** [r] is an object of the store [s]. *)
Definition allocated (s : Ref.store) (r : Ref.ref) : Prop :=
  r < List.length s.

(** Run in a store of at least [n] objects, [m] leaves the first [n] as
    they are and discards none; what it returns satisfies [post]. *)
Definition keeps {A : Type} (n : nat) (m : Ref.M A) (post : A -> Prop) : Prop :=
  forall (s s' : Ref.store) (r : result A),
    n <= List.length s ->
    m s = (r, s') ->
    firstn n s' = firstn n s /\
    List.length s <= List.length s' /\
    forall a, r = Ok a -> post a.

(** ** Scenarios *)

Set Warnings "-inexact-float".

(** Stands for [repr] in calls that print no float. *)
Definition no_float_repr (f : float) : string := EmptyString.

(** One column, three rows. *)
Definition price_table : DataFrame :=
  {| index_len := 3; data := [("price"%string, [10; 20; 30]%float)] |}.

(** One column, no row. *)
Definition empty_price_table : DataFrame :=
  {| index_len := 0; data := [("price"%string, [])] |}.

(** A descriptor of one dimension with the given bounds. *)
Definition price_space (lo hi : float) : Space :=
  {| shape := [1%Z]; low := [lo]; high := [hi] |}.

(** A table whose second column bears the name that append mode
    synthesizes for the first. *)
Definition clash_table : DataFrame :=
  {| index_len := 1;
     data := [("a"%string, [1]%float); ("a_minmax_0_1"%string, [7]%float)] |}.

Definition a_table : DataFrame :=
  {| index_len := 1; data := [("a"%string, [1]%float)] |}.

Definition ab_table : DataFrame :=
  {| index_len := 2;
     data := [("a"%string, [1; 2]%float); ("b"%string, [3; 4]%float)] |}.

Definition a2_table : DataFrame :=
  {| index_len := 2; data := [("a"%string, [1; 2]%float)] |}.

(** The column [a] without a row. *)
Definition empty_a_table : DataFrame :=
  {| index_len := 0; data := [("a"%string, [])] |}.

(** Two dimensions whose bounds coincide. *)
Definition flat_bounds : Space :=
  {| shape := [2%Z]; low := [5; 5]%float; high := [5; 5]%float |}.

Definition two_bounds : Space :=
  {| shape := [2%Z]; low := [0; 0]%float; high := [2; 2]%float |}.

(** A store with the arrays, the descriptor and the table of the first
    scenario, at the references 0 to 3. *)
Definition price_store : Ref.store :=
  [Ref.Ndarray [10]%float; Ref.Ndarray [30]%float; Ref.SpaceObj [1%Z] 0 1;
   Ref.Frame price_table].

(** The defaults, in place, with the column named. *)
Definition price_normalizer : MinMaxNormalizer :=
  {| columns := Some ["price"%string]; inplace := true;
     feature_min := PyInt 0; feature_max := PyInt 1 |}.

(** A target range of two floats, [-1.0] to [0.3]. *)
Definition skewed_normalizer : MinMaxNormalizer :=
  {| columns := Some ["price"%string]; inplace := true;
     feature_min := PyFloat (-1)%float; feature_max := PyFloat 0.3%float |}.

(** A target range from [1e17] to [1.0]. *)
Definition huge_min_normalizer : MinMaxNormalizer :=
  {| columns := Some ["price"%string]; inplace := true;
     feature_min := PyFloat 1e17%float; feature_max := PyFloat 1%float |}.

(** The ints [0] and [5]. *)
Definition five_normalizer : MinMaxNormalizer :=
  {| columns := Some ["price"%string]; inplace := true;
     feature_min := PyInt 0; feature_max := PyInt 5 |}.

(** Append mode with the defaults, on the column ["a"] or unresolved. *)
Definition append_a_normalizer : MinMaxNormalizer :=
  {| columns := Some ["a"%string]; inplace := false;
     feature_min := PyInt 0; feature_max := PyInt 1 |}.

Definition append_lazy_normalizer : MinMaxNormalizer :=
  {| columns := None; inplace := false;
     feature_min := PyInt 0; feature_max := PyInt 1 |}.

(** The defaults, unresolved. *)
Definition lazy_normalizer : MinMaxNormalizer :=
  {| columns := None; inplace := true;
     feature_min := PyInt 0; feature_max := PyInt 1 |}.

(** The table of the first scenario after one and after two calls in
    place with the bounds 10 and 30. *)
Definition price_rescaled : DataFrame :=
  {| index_len := 3; data := [("price"%string, [0; 0.5; 1]%float)] |}.

Definition price_rescaled_twice : DataFrame :=
  {| index_len := 3;
     data := [("price"%string, [-0.5; -0.475; -0.45]%float)] |}.

(** In place on the column ["a"] alone, and append mode on ["a"] and
    ["b"], with the defaults. *)
Definition inplace_a_normalizer : MinMaxNormalizer :=
  {| columns := Some ["a"%string]; inplace := true;
     feature_min := PyInt 0; feature_max := PyInt 1 |}.

Definition append_ab_normalizer : MinMaxNormalizer :=
  {| columns := Some ["a"%string; "b"%string]; inplace := false;
     feature_min := PyInt 0; feature_max := PyInt 1 |}.

(** What the two of them return on the table with the columns [a] and
    [b] and the bounds 0 and 2. *)
Definition ab_inplace_a_table : DataFrame :=
  {| index_len := 2;
     data := [("a"%string, [0.5; 1]%float); ("b"%string, [3; 4]%float)] |}.

Definition ab_appended_table : DataFrame :=
  {| index_len := 2;
     data := [("a"%string, [1; 2]%float); ("b"%string, [3; 4]%float);
              ("a_minmax_0_1"%string, [0.5; 1]%float);
              ("b_minmax_0_1"%string, [1.5; 2]%float)] |}.

(** * Properties *)

(** ** Columns of a table *)

Lemma lookup_set_col_same (c : string) (s : Series) (d : list (string * Series)) :
  lookup c (set_col c s d) = Some s.
Proof.
  induction d as [|[k v] d IH]; simpl.
  - now rewrite String.eqb_refl.
  - destruct (String.eqb k c) eqn:E; simpl; rewrite E; auto.
Qed.

Lemma lookup_set_col_other (c c' : string) (s : Series) (d : list (string * Series)) :
  c <> c' -> lookup c' (set_col c s d) = lookup c' d.
Proof.
  intros Hne. induction d as [|[k v] d IH]; simpl.
  - destruct (String.eqb_spec c c'); congruence.
  - destruct (String.eqb_spec k c) as [->|Hk]; simpl.
    + destruct (String.eqb_spec c c'); congruence.
    + now rewrite IH.
Qed.

Lemma lookup_None (c : string) (d : list (string * Series)) :
  lookup c d = None <-> ~ In c (map fst d).
Proof.
  induction d as [|[k v] d IH]; simpl.
  - tauto.
  - destruct (String.eqb_spec k c) as [->|Hk].
    + split; [discriminate | tauto].
    + rewrite IH. tauto.
Qed.

Lemma lookup_Some_In (c : string) (d : list (string * Series)) (s : Series) :
  lookup c d = Some s -> In c (map fst d) /\ In (c, s) d.
Proof.
  induction d as [|[k v] d IH]; simpl; [discriminate|].
  destruct (String.eqb_spec k c) as [->|Hk].
  - intros [= ->]. auto.
  - intros H. destruct (IH H). auto.
Qed.

Lemma In_lookup (c : string) (d : list (string * Series)) :
  In c (map fst d) -> exists s, lookup c d = Some s.
Proof.
  intros H. destruct (lookup c d) eqn:E; eauto.
  apply lookup_None in E. contradiction.
Qed.

Lemma names_set_col_present (c : string) (s : Series) (d : list (string * Series)) :
  In c (map fst d) -> map fst (set_col c s d) = map fst d.
Proof.
  induction d as [|[k v] d IH]; simpl; [tauto|].
  destruct (String.eqb_spec k c) as [->|Hk]; simpl; auto.
  intros [H|H]; [contradiction|]. now rewrite IH.
Qed.

Lemma names_set_col_absent (c : string) (s : Series) (d : list (string * Series)) :
  ~ In c (map fst d) -> map fst (set_col c s d) = (map fst d ++ [c])%list.
Proof.
  induction d as [|[k v] d IH]; simpl; auto.
  destruct (String.eqb_spec k c) as [->|Hk]; simpl.
  - tauto.
  - intros H. rewrite IH; tauto.
Qed.

Lemma names_set_col (c : string) (s : Series) (d : list (string * Series)) :
  exists added, map fst (set_col c s d) = (map fst d ++ added)%list /\
                (forall k, In k added -> k = c).
Proof.
  destruct (in_dec string_dec c (map fst d)) as [H|H].
  - exists []. rewrite names_set_col_present, app_nil_r by assumption.
    split; [reflexivity | intros k []].
  - exists [c]. rewrite names_set_col_absent by assumption.
    split; [reflexivity | intros k [<-|[]]; reflexivity].
Qed.

Lemma In_names_set_col (c k : string) (s : Series) (d : list (string * Series)) :
  In k (map fst (set_col c s d)) <-> k = c \/ In k (map fst d).
Proof.
  destruct (in_dec string_dec c (map fst d)) as [H|H].
  - rewrite names_set_col_present by assumption.
    split; [tauto | intros [->|]; assumption].
  - rewrite names_set_col_absent, in_app_iff by assumption. simpl.
    split; [intros [?|[<-|[]]]; auto | intros [->|?]; auto].
Qed.

Lemma Forall_set_col (P : string * Series -> Prop) (c : string) (s : Series)
    (d : list (string * Series)) :
  (forall k, P (k, s)) -> Forall P d -> Forall P (set_col c s d).
Proof.
  intros Hs. induction 1 as [|[k v] d Hk Hd IH]; simpl.
  - constructor; auto.
  - destruct (String.eqb k c); constructor; auto.
Qed.

Lemma getitem_assign_same (X : DataFrame) (c : string) (v : colvalue) :
  getitem (assign X c v) c = Ok (broadcast X v).
Proof. unfold getitem, assign; simpl. now rewrite lookup_set_col_same. Qed.

Lemma getitem_assign_other (X : DataFrame) (c c' : string) (v : colvalue) :
  c <> c' -> getitem (assign X c v) c' = getitem X c'.
Proof.
  intros H. unfold getitem, assign; simpl. now rewrite lookup_set_col_other.
Qed.

Lemma getitem_Ok (X : DataFrame) (c : string) (s : Series) :
  getitem X c = Ok s <-> lookup c (data X) = Some s.
Proof.
  unfold getitem. destruct (lookup c (data X)); split; congruence.
Qed.

Lemma getitem_present (X : DataFrame) (c : string) :
  In c (df_columns X) -> exists s, getitem X c = Ok s.
Proof.
  intros H. destruct (In_lookup _ _ H) as [s Hs]. exists s. now apply getitem_Ok.
Qed.

Lemma getitem_absent (X : DataFrame) (c : string) :
  ~ In c (df_columns X) -> getitem X c = Raise (KeyError c).
Proof.
  intros H. unfold getitem. apply lookup_None in H. now rewrite H.
Qed.

Lemma well_formed_length (X : DataFrame) (c : string) (s : Series) :
  well_formed X -> getitem X c = Ok s -> List.length s = index_len X.
Proof.
  unfold well_formed. intros Hwf H. apply getitem_Ok, lookup_Some_In in H.
  destruct H as [_ H]. rewrite Forall_forall in Hwf. exact (Hwf _ H).
Qed.

(** ** Numbers *)

Lemma scale_ints (self : MinMaxNormalizer) (a b : Z) :
  feature_min self = PyInt a -> feature_max self = PyInt b ->
  scale self = feature_max self.
Proof.
  unfold scale. intros -> ->. simpl. f_equal. lia.
Qed.

Lemma int_truediv_Ok (a b : Z) (q : float) :
  int_truediv a b = Ok q ->
  b <> 0%Z /\ q = PrimFloat.div (float_of_int a) (float_of_int b).
Proof.
  unfold int_truediv. destruct (Z.eqb_spec b 0); [discriminate|].
  intros [= <-]. auto.
Qed.

Lemma item_Ok (a : list float) (idx : nat) (x : float) :
  item a idx = Ok x <-> nth_error a idx = Some x.
Proof. unfold item. destruct (nth_error a idx); split; congruence. Qed.

(** ** The loop of [transform] *)

Section TransformFacts.

Variable float_repr : float -> string.

Variable self : MinMaxNormalizer.
Variable input_space : Space.

Lemma normalized_column_Ok (X : DataFrame) (column : string)
    (lo hi : float) (nc : colvalue) :
  normalized_column self X column lo hi = Ok nc ->
  exists s, getitem X column = Ok s /\
    if PrimFloat.eqb (PrimFloat.sub hi lo) 0%float
    then List.length s <> 0 /\
         nc = Scalar (PrimFloat.mul
                        (PrimFloat.div (float_of_int 1)
                                       (float_of_int (Z.of_nat (List.length s))))
                        (as_float (scale self)))
    else nc = Column (map (fun v =>
           PrimFloat.mul
             (PrimFloat.div (PrimFloat.sub v lo) (PrimFloat.sub hi lo))
             (as_float (scale self))) s).
Proof.
  unfold normalized_column.
  destruct (PrimFloat.eqb (PrimFloat.sub hi lo) 0%float);
    destruct (getitem X column) as [s|e]; simpl; try discriminate.
  - destruct (int_truediv 1 (Z.of_nat (List.length s))) as [q|e] eqn:E;
      simpl; [|discriminate].
    intros [= <-]. apply int_truediv_Ok in E. destruct E as [Hn ->].
    exists s. repeat split; auto. lia.
  - intros [= <-]. eauto.
Qed.

Lemma transform_body_Ok (idx : nat) (column : string) (X X' : DataFrame) :
  transform_body float_repr self input_space idx column X = Ok X' ->
  exists lo hi nc,
    nth_error (low input_space) idx = Some lo /\
    nth_error (high input_space) idx = Some hi /\
    normalized_column self X column lo hi = Ok nc /\
    X' = assign X (destination float_repr self column) nc.
Proof.
  unfold transform_body.
  destruct (item (low input_space) idx) as [lo|] eqn:Hlo; simpl; [|discriminate].
  destruct (item (high input_space) idx) as [hi|] eqn:Hhi; simpl; [|discriminate].
  destruct (normalized_column self X column lo hi) as [nc|] eqn:Hnc;
    simpl; [|discriminate].
  intros [= <-]. exists lo, hi, nc.
  apply item_Ok in Hlo, Hhi. auto.
Qed.

(** An iteration writes one column and nothing else. *)
Lemma transform_body_frame (idx : nat) (column c : string) (X X' : DataFrame) :
  transform_body float_repr self input_space idx column X = Ok X' ->
  destination float_repr self column <> c ->
  getitem X' c = getitem X c.
Proof.
  intros H Hne. apply transform_body_Ok in H.
  destruct H as (lo & hi & nc & _ & _ & _ & ->).
  now apply getitem_assign_other.
Qed.

Lemma transform_body_index_len (idx : nat) (column : string) (X X' : DataFrame) :
  transform_body float_repr self input_space idx column X = Ok X' ->
  index_len X' = index_len X.
Proof.
  intros H. apply transform_body_Ok in H.
  destruct H as (lo & hi & nc & _ & _ & _ & ->). reflexivity.
Qed.

Lemma transform_body_names (idx : nat) (column : string) (X X' : DataFrame) :
  transform_body float_repr self input_space idx column X = Ok X' ->
  (forall k, In k (df_columns X') <->
             k = destination float_repr self column \/ In k (df_columns X)) /\
  exists added, df_columns X' = (df_columns X ++ added)%list.
Proof.
  intros H. apply transform_body_Ok in H.
  destruct H as (lo & hi & nc & _ & _ & _ & ->).
  unfold df_columns, assign; simpl. split.
  - intros k. apply In_names_set_col.
  - destruct (names_set_col (destination float_repr self column) (broadcast X nc) (data X))
      as (added & Hadd & _).
    eauto.
Qed.

Lemma transform_body_well_formed (idx : nat) (column : string)
    (X X' : DataFrame) :
  transform_body float_repr self input_space idx column X = Ok X' ->
  well_formed X -> well_formed X'.
Proof.
  intros H Hwf. apply transform_body_Ok in H.
  destruct H as (lo & hi & nc & _ & _ & Hnc & ->).
  apply normalized_column_Ok in Hnc. destruct Hnc as (s & Hs & Hnc).
  pose proof (well_formed_length X _ _ Hwf Hs) as Hlen.
  unfold well_formed, assign; simpl. apply Forall_set_col; [|exact Hwf].
  intros k; simpl.
  destruct (PrimFloat.eqb (PrimFloat.sub hi lo) 0%float).
  - destruct Hnc as [_ ->]. simpl. apply repeat_length.
  - subst nc. simpl. now rewrite length_map.
Qed.

(** The loop over a concatenation runs the first part, then the second. *)
Lemma transform_loop_app (pre post : list string) (idx : nat) (X : DataFrame) :
  transform_loop float_repr self input_space idx (pre ++ post) X =
  (X1 <- transform_loop float_repr self input_space idx pre X ;;
   transform_loop float_repr self input_space (List.length pre + idx) post X1).
Proof.
  revert idx X. induction pre as [|c pre IH]; intros idx X; simpl.
  - reflexivity.
  - destruct (transform_body float_repr self input_space idx c X) as [X1|e]; simpl.
    + rewrite IH. now rewrite Nat.add_succ_r.
    + reflexivity.
Qed.

Lemma transform_loop_frame (cols : list string) (c : string) :
  forall (idx : nat) (X X' : DataFrame),
  transform_loop float_repr self input_space idx cols X = Ok X' ->
  (forall k, In k cols -> destination float_repr self k <> c) ->
  getitem X' c = getitem X c.
Proof.
  induction cols as [|k cols IH]; intros idx X X'; simpl.
  - now intros [= ->].
  - destruct (transform_body float_repr self input_space idx k X) as [X1|e] eqn:E;
      simpl; [|discriminate].
    intros H Hne. rewrite (IH _ _ _ H) by auto.
    eapply transform_body_frame; eauto.
Qed.

Lemma transform_loop_index_len (cols : list string) :
  forall (idx : nat) (X X' : DataFrame),
  transform_loop float_repr self input_space idx cols X = Ok X' ->
  index_len X' = index_len X.
Proof.
  induction cols as [|k cols IH]; intros idx X X'; simpl.
  - now intros [= ->].
  - destruct (transform_body float_repr self input_space idx k X) as [X1|e] eqn:E;
      simpl; [|discriminate].
    intros H. rewrite (IH _ _ _ H). eapply transform_body_index_len; eauto.
Qed.

Lemma transform_loop_well_formed (cols : list string) :
  forall (idx : nat) (X X' : DataFrame),
  transform_loop float_repr self input_space idx cols X = Ok X' ->
  well_formed X -> well_formed X'.
Proof.
  induction cols as [|k cols IH]; intros idx X X'; simpl.
  - now intros [= ->].
  - destruct (transform_body float_repr self input_space idx k X) as [X1|e] eqn:E;
      simpl; [|discriminate].
    intros H Hwf. eapply IH; eauto. eapply transform_body_well_formed; eauto.
Qed.

Lemma transform_loop_names (cols : list string) :
  forall (idx : nat) (X X' : DataFrame),
  transform_loop float_repr self input_space idx cols X = Ok X' ->
  (forall k, In k (df_columns X') <->
             In k (df_columns X) \/ In k (map (destination float_repr self) cols)) /\
  exists added, df_columns X' = (df_columns X ++ added)%list.
Proof.
  induction cols as [|c cols IH]; intros idx X X'; simpl.
  - intros [= ->]. split; [tauto|]. exists []. now rewrite app_nil_r.
  - destruct (transform_body float_repr self input_space idx c X) as [X1|e] eqn:E;
      simpl; [|discriminate].
    intros H. apply IH in H. destruct H as [Hin [added Hadd]].
    apply transform_body_names in E. destruct E as [Hin1 [added1 Hadd1]].
    split.
    + intros k. rewrite Hin, Hin1. intuition (subst; auto).
    + exists (added1 ++ added)%list. now rewrite Hadd, Hadd1, app_assoc.
Qed.

End TransformFacts.

(** ** What [transform] writes *)

Lemma float_of_int_1 : float_of_int 1 = 1%float.
Proof. reflexivity. Qed.

Section Written.

Variable float_repr : float -> string.

(** The loop, cut at the iteration of one tracked column. *)
Lemma transform_loop_split (self : MinMaxNormalizer) (input_space : Space)
    (pre post : list string) (column : string) (X X' : DataFrame) :
  transform_loop float_repr self input_space 0 (pre ++ column :: post) X = Ok X' ->
  exists X1 X2,
    transform_loop float_repr self input_space 0 pre X = Ok X1 /\
    transform_body float_repr self input_space (List.length pre) column X1 = Ok X2 /\
    transform_loop float_repr self input_space (S (List.length pre)) post X2 = Ok X'.
Proof.
  rewrite transform_loop_app.
  destruct (transform_loop float_repr self input_space 0 pre X) as [X1|e]; simpl;
    [|discriminate].
  rewrite Nat.add_0_r.
  destruct (transform_body float_repr self input_space (List.length pre) column X1)
    as [X2|e] eqn:E; simpl; [|discriminate].
  intros H. exists X1, X2. auto.
Qed.

Lemma transform_Ok (self self' : MinMaxNormalizer) (X X' : DataFrame)
    (input_space : Space) :
  transform float_repr self X input_space = (self', Ok X') ->
  self' = resolve self X /\
  transform_loop float_repr self' input_space 0 (tracked_columns self') X = Ok X'.
Proof.
  unfold transform. intros [= <- H]. auto.
Qed.


(** C2 (amended): for a tracked column whose bounds satisfy
    [high - low == 0], on a table whose columns span its [row_count] rows,
    every row of the destination column in the returned table is the one
    constant [(1 / row_count) * scale], with
    [scale = (feature_max - feature_min) + feature_min] and both operations
    rounded in binary64: it depends neither on the column's values nor on
    the common bound.  (The destination is read in the returned table, so
    no later tracked column may write it.) *)
Theorem transform_degenerate :
  forall (self self' : MinMaxNormalizer) (X X' : DataFrame)
         (input_space : Space) (pre post : list string) (column : string)
         (lo hi : float),
    transform float_repr self X input_space = (self', Ok X') ->
    tracked_columns self' = (pre ++ column :: post)%list ->
    nth_error (low input_space) (List.length pre) = Some lo ->
    nth_error (high input_space) (List.length pre) = Some hi ->
    PrimFloat.eqb (PrimFloat.sub hi lo) 0%float = true ->
    well_formed X ->
    (forall k, In k post -> destination float_repr self' k <> destination float_repr self' column) ->
    1 <= index_len X /\
    getitem X' (destination float_repr self' column) =
    Ok (repeat
          (PrimFloat.mul
             (PrimFloat.div 1%float (float_of_int (Z.of_nat (index_len X))))
             (as_float (scale self')))
          (index_len X)).
Proof.
  intros self self' X X' sp pre post column lo hi Ht Hcols Hlo Hhi Hd Hwf Hpost.
  apply transform_Ok in Ht. destruct Ht as [_ Hloop].
  rewrite Hcols in Hloop. apply transform_loop_split in Hloop.
  destruct Hloop as (X1 & X2 & H1 & H2 & H3).
  assert (Hdst : getitem X' (destination float_repr self' column) =
                 getitem X2 (destination float_repr self' column))
    by (eapply transform_loop_frame; eauto).
  assert (Hwf1 : well_formed X1)
    by (eapply transform_loop_well_formed; eauto).
  assert (Hidx : index_len X1 = index_len X)
    by (eapply transform_loop_index_len; eauto).
  apply transform_body_Ok in H2.
  destruct H2 as (lo' & hi' & nc & Hlo' & Hhi' & Hnc & ->).
  assert (lo' = lo) by congruence. assert (hi' = hi) by congruence. subst lo' hi'.
  apply normalized_column_Ok in Hnc. destruct Hnc as (s & Hs & Hnc).
  rewrite Hd in Hnc. destruct Hnc as [Hlen ->].
  rewrite (well_formed_length _ _ _ Hwf1 Hs), Hidx in Hlen.
  rewrite getitem_assign_same in Hdst. simpl in Hdst.
  rewrite (well_formed_length _ _ _ Hwf1 Hs), Hidx, float_of_int_1 in Hdst.
  split; [lia | exact Hdst].
Qed.

End Written.

(** ** Outcomes of [transform] *)

Section Failures.

Variable float_repr : float -> string.

Variable self : MinMaxNormalizer.
Variable input_space : Space.

Lemma transform_body_bounds (idx : nat) (column : string) (X : DataFrame)
    (lo hi : float) :
  nth_error (low input_space) idx = Some lo ->
  nth_error (high input_space) idx = Some hi ->
  transform_body float_repr self input_space idx column X =
  (normalized <- normalized_column self X column lo hi ;;
   Ok (assign X (destination float_repr self column) normalized)).
Proof.
  intros Hlo Hhi. unfold transform_body.
  apply item_Ok in Hlo, Hhi. now rewrite Hlo, Hhi.
Qed.

(** Both branches look the column up before anything else. *)
Lemma normalized_column_absent (X : DataFrame) (column : string) (lo hi : float) :
  ~ In column (df_columns X) ->
  normalized_column self X column lo hi = Raise (KeyError column).
Proof.
  intros H. unfold normalized_column. rewrite (getitem_absent _ _ H).
  now destruct (PrimFloat.eqb (PrimFloat.sub hi lo) 0%float).
Qed.

Lemma normalized_column_empty (X : DataFrame) (column : string) (lo hi : float) :
  getitem X column = Ok [] ->
  PrimFloat.eqb (PrimFloat.sub hi lo) 0%float = true ->
  normalized_column self X column lo hi = Raise ZeroDivisionError.
Proof.
  intros Hs Hd. unfold normalized_column. now rewrite Hd, Hs.
Qed.

(** An iteration goes through when its bounds and its column are there
    and the column is not both degenerate and empty. *)
Lemma transform_body_total (idx : nat) (column : string) (X : DataFrame)
    (lo hi : float) (s : Series) :
  nth_error (low input_space) idx = Some lo ->
  nth_error (high input_space) idx = Some hi ->
  getitem X column = Ok s ->
  List.length s <> 0 \/ PrimFloat.eqb (PrimFloat.sub hi lo) 0%float = false ->
  exists X', transform_body float_repr self input_space idx column X = Ok X'.
Proof.
  intros Hlo Hhi Hs Hok. rewrite (transform_body_bounds _ _ _ _ _ Hlo Hhi).
  unfold normalized_column. rewrite Hs; simpl.
  destruct (PrimFloat.eqb (PrimFloat.sub hi lo) 0%float) eqn:E.
  - destruct Hok as [Hlen|]; [|discriminate].
    unfold int_truediv.
    destruct (Z.eqb_spec (Z.of_nat (List.length s)) 0); [lia|].
    simpl. eauto.
  - simpl. eauto.
Qed.

Lemma nth_error_lt (a : list float) (n : nat) :
  n < List.length a -> exists x, nth_error a n = Some x.
Proof.
  intros H. destruct (nth_error a n) eqn:E; eauto.
  apply nth_error_None in E. lia.
Qed.

(** On a table without rows the loop stops at the first degenerate
    column. *)
Lemma transform_loop_zero_rows (column : string) (post : list string)
    (lo hi : float) :
  PrimFloat.eqb (PrimFloat.sub hi lo) 0%float = true ->
  forall (pre : list string) (idx : nat) (X : DataFrame),
    index_len X = 0 -> well_formed X ->
    (forall k, In k (pre ++ [column])%list -> In k (df_columns X)) ->
    nth_error (low input_space) (idx + List.length pre) = Some lo ->
    nth_error (high input_space) (idx + List.length pre) = Some hi ->
    transform_loop float_repr self input_space idx (pre ++ column :: post) X =
    Raise ZeroDivisionError.
Proof.
  intros Hd. induction pre as [|k pre IH]; intros idx X Hrows Hwf Hin Hlo Hhi.
  - simpl in *. rewrite Nat.add_0_r in Hlo, Hhi.
    rewrite (transform_body_bounds _ _ _ _ _ Hlo Hhi).
    destruct (getitem_present X column) as [s Hs]; [auto|].
    pose proof (well_formed_length X _ _ Hwf Hs) as Hlen. rewrite Hrows in Hlen.
    destruct s; [|discriminate].
    now rewrite (normalized_column_empty _ _ _ _ Hs Hd).
  - simpl in Hlo, Hhi. rewrite Nat.add_succ_r in Hlo, Hhi.
    destruct (nth_error_lt (low input_space) idx) as [lo0 Hlo0].
    { assert (nth_error (low input_space) (S (idx + List.length pre)) <> None)
        by congruence.
      apply nth_error_Some in H. lia. }
    destruct (nth_error_lt (high input_space) idx) as [hi0 Hhi0].
    { assert (nth_error (high input_space) (S (idx + List.length pre)) <> None)
        by congruence.
      apply nth_error_Some in H. lia. }
    destruct (getitem_present X k) as [s Hs]; [apply Hin; simpl; auto|].
    pose proof (well_formed_length X _ _ Hwf Hs) as Hlen. rewrite Hrows in Hlen.
    destruct s; [|discriminate].
    simpl. destruct (PrimFloat.eqb (PrimFloat.sub hi0 lo0) 0%float) eqn:E.
    + rewrite (transform_body_bounds _ _ _ _ _ Hlo0 Hhi0).
      now rewrite (normalized_column_empty _ _ _ _ Hs E).
    + destruct (transform_body_total idx k X _ _ _ Hlo0 Hhi0 Hs) as [X1 HX1]; [auto|].
      rewrite HX1; simpl. apply IH.
      * erewrite transform_body_index_len; eauto.
      * eapply transform_body_well_formed; eauto.
      * intros c Hc. apply (transform_body_names _ _ _ _ _ _ _ HX1).
        right. apply Hin. simpl; auto.
      * exact Hlo.
      * exact Hhi.
Qed.

(** With bounds for every position and at least one row, the loop stops
    at the first tracked column the table lacks, unless an earlier
    iteration has created that column. *)
Lemma transform_loop_missing (c : string) (post : list string) :
  forall (pre : list string) (idx : nat) (X : DataFrame),
    well_formed X -> 1 <= index_len X ->
    idx + List.length pre < List.length (low input_space) ->
    idx + List.length pre < List.length (high input_space) ->
    (forall k, In k pre -> In k (df_columns X)) ->
    ~ In c (df_columns X) ->
    (forall k, In k pre -> destination float_repr self k <> c) ->
    transform_loop float_repr self input_space idx (pre ++ c :: post) X =
    Raise (KeyError c).
Proof.
  induction pre as [|k pre IH]; intros idx X Hwf Hrows Hlo Hhi Hin Hc Hne.
  - simpl in *. rewrite Nat.add_0_r in Hlo, Hhi.
    destruct (nth_error_lt _ _ Hlo) as [lo Hlo'].
    destruct (nth_error_lt _ _ Hhi) as [hi Hhi'].
    rewrite (transform_body_bounds _ _ _ _ _ Hlo' Hhi').
    now rewrite normalized_column_absent.
  - simpl in Hlo, Hhi.
    destruct (nth_error_lt (low input_space) idx) as [lo Hlo']; [lia|].
    destruct (nth_error_lt (high input_space) idx) as [hi Hhi']; [lia|].
    destruct (getitem_present X k) as [s Hs]; [apply Hin; simpl; auto|].
    pose proof (well_formed_length X _ _ Hwf Hs) as Hlen.
    destruct (transform_body_total idx k X _ _ _ Hlo' Hhi' Hs) as [X1 HX1]; [lia|].
    simpl. rewrite HX1; simpl. apply IH.
    + eapply transform_body_well_formed; eauto.
    + erewrite transform_body_index_len; eauto.
    + lia.
    + lia.
    + intros c' Hc'. apply (transform_body_names _ _ _ _ _ _ _ HX1).
      right. apply Hin. simpl; auto.
    + intros Habs. apply (transform_body_names _ _ _ _ _ _ _ HX1) in Habs.
      destruct Habs as [Habs|Habs]; [|contradiction].
      apply (Hne k); simpl; auto.
    + intros c' Hc'. apply Hne. simpl; auto.
Qed.

(** With its columns, its bounds and a row, the loop goes through. *)
Lemma transform_loop_total (cols : list string) :
  forall (idx : nat) (X : DataFrame),
    well_formed X -> 1 <= index_len X ->
    idx + List.length cols <= List.length (low input_space) ->
    idx + List.length cols <= List.length (high input_space) ->
    (forall k, In k cols -> In k (df_columns X)) ->
    exists X', transform_loop float_repr self input_space idx cols X = Ok X'.
Proof.
  induction cols as [|k cols IH]; intros idx X Hwf Hrows Hlo Hhi Hin; simpl.
  - eauto.
  - simpl in Hlo, Hhi.
    destruct (nth_error_lt (low input_space) idx) as [lo Hlo']; [lia|].
    destruct (nth_error_lt (high input_space) idx) as [hi Hhi']; [lia|].
    destruct (getitem_present X k) as [s Hs]; [apply Hin; simpl; auto|].
    pose proof (well_formed_length X _ _ Hwf Hs) as Hlen.
    destruct (transform_body_total idx k X _ _ _ Hlo' Hhi' Hs) as [X1 HX1]; [lia|].
    rewrite HX1; simpl. apply IH.
    + eapply transform_body_well_formed; eauto.
    + erewrite transform_body_index_len; eauto.
    + lia.
    + lia.
    + intros c Hc. apply (transform_body_names _ _ _ _ _ _ _ HX1).
      right. apply Hin. simpl; auto.
Qed.

End Failures.


(** ** Failures, names and the descriptor *)

Section Names.

Variable float_repr : float -> string.




(** C10: with an explicit empty column list [transform] returns its
    table as it is and leaves the list empty: the lazy resolution is for
    [None] only. *)
Theorem transform_empty_columns :
  forall (mode : bool) (fmin fmax : pynum) (X : DataFrame)
         (input_space : Space),
    transform float_repr (mkNormalizer (Some []) mode fmin fmax) X input_space =
    (mkNormalizer (Some []) mode fmin fmax, Ok X).
Proof. reflexivity. Qed.

End Names.

(** The loop of [transform_space], in one step. *)
Lemma for_each_append_bounds (self : MinMaxNormalizer) (m : nat) (sp : Space) :
  for_each m (append_bounds self) sp =
  mkSpace (shape sp)
          (low sp ++ repeat (as_float (feature_min self)) m)
          (high sp ++ repeat (as_float (feature_max self)) m).
Proof.
  revert sp. induction m as [|m IH]; intros sp; simpl.
  - rewrite !app_nil_r. now destruct sp.
  - rewrite IH. simpl. now rewrite <- !app_assoc.
Qed.


(** C3: in append mode with [ColumnSet] unset (or empty) the fallback
    [range(len(shape_x))] takes the length of an int: [transform_space]
    raises [TypeError] and returns no descriptor. *)
Theorem transform_space_fallback :
  forall (fmin fmax : pynum) (shape_x : Z) (shape_y : list Z)
         (lo hi : list float) (column_names : list string),
    transform_space (mkNormalizer None false fmin fmax)
                    (mkSpace (shape_x :: shape_y) lo hi) column_names =
    Raise TypeError /\
    transform_space (mkNormalizer (Some []) false fmin fmax)
                    (mkSpace (shape_x :: shape_y) lo hi) column_names =
    Raise TypeError.
Proof. intros. split; reflexivity. Qed.

(** ** The store *)

Section StoreFacts.

Lemma length_update (r : Ref.ref) (o : Ref.object) (s : Ref.store) :
  List.length (Ref.update r o s) = List.length s.
Proof.
  revert r. induction s as [|x s IH]; intros [|r]; simpl; auto.
Qed.

Lemma nth_error_update_same (r : Ref.ref) (o : Ref.object) (s : Ref.store) :
  r < List.length s -> nth_error (Ref.update r o s) r = Some o.
Proof.
  revert r. induction s as [|x s IH]; intros [|r]; simpl; try lia; auto.
  intros H. apply IH. lia.
Qed.

Lemma nth_error_update_other (r r' : Ref.ref) (o : Ref.object) (s : Ref.store) :
  r <> r' -> nth_error (Ref.update r o s) r' = nth_error s r'.
Proof.
  revert r r'. induction s as [|x s IH]; intros [|r] [|r']; simpl; auto;
    try congruence.
Qed.

Lemma firstn_update (n : nat) (r : Ref.ref) (o : Ref.object) (s : Ref.store) :
  n <= r -> firstn n (Ref.update r o s) = firstn n s.
Proof.
  revert n r. induction s as [|x s IH]; intros [|n] [|r]; simpl; auto; try lia.
  intros H. f_equal. apply IH. lia.
Qed.

Lemma firstn_snoc (n : nat) (o : Ref.object) (s : Ref.store) :
  n <= List.length s -> firstn n (s ++ [o]) = firstn n s.
Proof.
  intros H. rewrite firstn_app.
  replace (n - List.length s) with 0 by lia. simpl. apply app_nil_r.
Qed.

Lemma nth_error_snoc_old (r : Ref.ref) (o x : Ref.object) (s : Ref.store) :
  nth_error s r = Some x -> nth_error (s ++ [o]) r = Some x.
Proof.
  intros H. rewrite nth_error_app1; auto.
  apply nth_error_Some. congruence.
Qed.

Lemma nth_error_snoc_new (o : Ref.object) (s : Ref.store) :
  nth_error (s ++ [o]) (List.length s) = Some o.
Proof.
  rewrite nth_error_app2 by lia. now rewrite Nat.sub_diag.
Qed.

(** What the first [n] cells hold is what every reference below [n]
    reads. *)
Lemma firstn_nth_error (n : nat) (r : Ref.ref) (s s' : Ref.store) :
  firstn n s' = firstn n s -> r < n -> nth_error s' r = nth_error s r.
Proof.
  intros H Hr.
  pose proof (nth_error_firstn n s' r) as H1.
  pose proof (nth_error_firstn n s r) as H2.
  apply Nat.ltb_lt in Hr. rewrite Hr in H1, H2.
  now rewrite <- H1, <- H2, H.
Qed.

End StoreFacts.

(** ** Computations that leave the caller's objects alone *)

Section Keeps.

Variable n : nat.

Lemma keeps_ret (A : Type) (a : A) (post : A -> Prop) :
  post a -> keeps n (Ref.ret a) post.
Proof.
  intros H s s' r _ [= <- <-]. repeat split; auto. now intros a' [= <-].
Qed.

Lemma keeps_raise (A : Type) (e : exn) (post : A -> Prop) :
  keeps n (Ref.raise e) post.
Proof.
  intros s s' r _ [= <- <-]. repeat split; auto. discriminate.
Qed.

Lemma keeps_lift (A : Type) (x : result A) :
  keeps n (Ref.lift x) (fun _ => True).
Proof.
  intros s s' r _ [= <- <-]. repeat split; auto.
Qed.

Lemma keeps_bind (A B : Type) (m : Ref.M A) (k : A -> Ref.M B)
    (mid : A -> Prop) (post : B -> Prop) :
  keeps n m mid ->
  (forall a, mid a -> keeps n (k a) post) ->
  keeps n (Ref.bindM m k) post.
Proof.
  intros Hm Hk s s' r Hn. unfold Ref.bindM.
  destruct (m s) as [[a|e] s1] eqn:E.
  - destruct (Hm _ _ _ Hn E) as (H1 & H2 & H3).
    intros Hrun. destruct (Hk a (H3 a eq_refl) s1 s' r) as (H4 & H5 & H6); auto.
    + lia.
    + repeat split; auto; [congruence | lia].
  - destruct (Hm _ _ _ Hn E) as (H1 & H2 & _).
    intros [= <- <-]. repeat split; auto. discriminate.
Qed.

Lemma keeps_weaken (A : Type) (m : Ref.M A) (mid post : A -> Prop) :
  keeps n m mid -> (forall a, mid a -> post a) -> keeps n m post.
Proof.
  intros Hm Himp s s' r Hn E. destruct (Hm _ _ _ Hn E) as (H1 & H2 & H3).
  repeat split; auto.
Qed.

Lemma keeps_deref (r : Ref.ref) : keeps n (Ref.deref r) (fun _ => True).
Proof.
  intros s s' x _. unfold Ref.deref.
  destruct (nth_error s r); intros [= <- <-]; repeat split; auto.
Qed.

Lemma keeps_alloc (o : Ref.object) : keeps n (Ref.alloc o) (fun r => n <= r).
Proof.
  intros s s' x Hn [= <- <-]. repeat split.
  - now apply firstn_snoc.
  - rewrite length_app. lia.
  - now intros a [= <-].
Qed.

Lemma keeps_put (r : Ref.ref) (o : Ref.object) :
  n <= r -> keeps n (Ref.put r o) (fun _ => True).
Proof.
  intros Hr s s' x Hn [= <- <-]. repeat split.
  - now apply firstn_update.
  - rewrite length_update. lia.
Qed.

End Keeps.

Create HintDb keeps.

#[local] Hint Resolve keeps_ret keeps_raise keeps_lift keeps_deref keeps_alloc
  keeps_put : keeps.

(** One step through a computation: a bind, or the case analysis on the
    object a reference holds. *)
Ltac keeps_step :=
  match goal with
  | |- keeps _ (Ref.bindM (Ref.deref _) _) _ =>
      eapply keeps_bind; [apply keeps_deref | intros [?|? ? ?|?] _]
  | |- keeps _ (Ref.bindM _ _) _ => eapply keeps_bind
  | |- keeps _ _ (fun _ => True) => solve [auto with keeps]
  | |- keeps _ _ _ =>
      solve [auto with keeps
            | eapply keeps_weaken; [solve [auto with keeps] | auto]]
  end.

Lemma keeps_get_shape (n : nat) (r : Ref.ref) :
  keeps n (Ref.get_shape r) (fun _ => True).
Proof. unfold Ref.get_shape. repeat keeps_step. Qed.

Lemma keeps_get_low (n : nat) (r : Ref.ref) :
  keeps n (Ref.get_low r) (fun _ => True).
Proof. unfold Ref.get_low. repeat keeps_step. Qed.

Lemma keeps_get_high (n : nat) (r : Ref.ref) :
  keeps n (Ref.get_high r) (fun _ => True).
Proof. unfold Ref.get_high. repeat keeps_step. Qed.

Lemma keeps_get_array (n : nat) (r : Ref.ref) :
  keeps n (Ref.get_array r) (fun _ => True).
Proof. unfold Ref.get_array. repeat keeps_step. Qed.

Lemma keeps_get_frame (n : nat) (r : Ref.ref) :
  keeps n (Ref.get_frame r) (fun _ => True).
Proof. unfold Ref.get_frame. repeat keeps_step. Qed.

Lemma keeps_set_shape (n : nat) (r : Ref.ref) (sh : list Z) :
  n <= r -> keeps n (Ref.set_shape r sh) (fun _ => True).
Proof. intros H. unfold Ref.set_shape. repeat keeps_step. Qed.

Lemma keeps_set_low (n : nat) (r l : Ref.ref) :
  n <= r -> keeps n (Ref.set_low r l) (fun _ => True).
Proof. intros H. unfold Ref.set_low. repeat keeps_step. Qed.

Lemma keeps_set_high (n : nat) (r h : Ref.ref) :
  n <= r -> keeps n (Ref.set_high r h) (fun _ => True).
Proof. intros H. unfold Ref.set_high. repeat keeps_step. Qed.

Lemma keeps_copy (n : nat) (r : Ref.ref) :
  keeps n (Ref.copy r) (fun out => n <= out).
Proof.
  unfold Ref.copy. eapply keeps_bind; [apply keeps_deref|].
  intros o _. apply keeps_alloc.
Qed.

Lemma keeps_np_append (n : nat) (a : Ref.ref) (v : float) :
  keeps n (Ref.np_append a v) (fun _ => True).
Proof.
  unfold Ref.np_append. eapply keeps_bind; [apply keeps_get_array|].
  intros arr _. eapply keeps_weaken; [apply keeps_alloc | auto].
Qed.

#[local] Hint Resolve keeps_get_shape keeps_get_low keeps_get_high
  keeps_get_array keeps_get_frame keeps_set_shape keeps_set_low
  keeps_set_high keeps_np_append : keeps.

Lemma keeps_append_bounds (n : nat) (self : MinMaxNormalizer) (out : Ref.ref) :
  n <= out -> keeps n (Ref.append_bounds self out) (fun _ => True).
Proof.
  intros H. unfold Ref.append_bounds.
  do 5 (eapply keeps_bind; [solve [auto with keeps] | intros ? _]).
  auto with keeps.
Qed.

Lemma keeps_for_each (n k : nat) (body : Ref.M unit) :
  keeps n body (fun _ => True) -> keeps n (Ref.for_each k body) (fun _ => True).
Proof.
  intros H. induction k as [|k IH]; simpl.
  - now apply keeps_ret.
  - eapply keeps_bind; [exact H | auto].
Qed.

Lemma keeps_transform_space (n : nat) (self : MinMaxNormalizer)
    (input_space : Ref.ref) (column_names : list string) :
  keeps n (Ref.transform_space self input_space column_names) (fun _ => True).
Proof.
  unfold Ref.transform_space. destruct (inplace self).
  - now apply keeps_ret.
  - eapply keeps_bind; [apply keeps_copy|]. intros out Hout.
    eapply keeps_bind; [apply keeps_get_shape|]. intros [|shape_x shape_y] _.
    + apply keeps_raise.
    + eapply keeps_bind; [apply keeps_lift|]. intros cols _.
      eapply keeps_bind; [now apply keeps_set_shape|]. intros _ _.
      eapply keeps_bind.
      * apply keeps_for_each. now apply keeps_append_bounds.
      * intros _ _. now apply keeps_ret.
Qed.

Lemma keeps_transform_loop (float_repr : float -> string) (n : nat)
    (self : MinMaxNormalizer) (input_space : Ref.ref) (cols : list string) :
  forall (idx : nat) (X : Ref.ref),
    keeps n (Ref.transform_loop float_repr self input_space idx cols X)
          (fun _ => True).
Proof.
  induction cols as [|c cols IH]; intros idx X; simpl.
  - now apply keeps_ret.
  - apply keeps_bind with (mid := fun _ => True); [|intros X' _; apply IH].
    assert (Hbound : forall get, (forall r, keeps n (get r) (fun _ => True)) ->
                                 keeps n (Ref.bound get input_space idx) (fun _ => True)).
    { intros get Hget. unfold Ref.bound.
      do 2 (eapply keeps_bind; [solve [auto with keeps] | intros ? _]).
      apply keeps_lift. }
    unfold Ref.transform_body.
    do 4 (eapply keeps_bind; [solve [auto with keeps] | intros ? _]).
    eapply keeps_weaken; [apply keeps_alloc | auto].
Qed.

(** ** The two layers agree *)

Lemma space_at_snoc (s : Ref.store) (r : Ref.ref) (sp : Space) (o : Ref.object) :
  space_at s r sp -> space_at (s ++ [o]) r sp.
Proof.
  intros (l & h & Hr & Hl & Hh). exists l, h.
  repeat split; now apply nth_error_snoc_old.
Qed.

Lemma ref_bound_low (s : Ref.store) (r : Ref.ref) (sp : Space) (idx : nat) :
  space_at s r sp ->
  Ref.bound Ref.get_low r idx s = (item (low sp) idx, s).
Proof.
  intros (l & h & Hr & Hl & Hh).
  unfold Ref.bound, Ref.get_low, Ref.get_array, Ref.bindM, Ref.deref.
  rewrite Hr; simpl. now rewrite Hl.
Qed.

Lemma ref_bound_high (s : Ref.store) (r : Ref.ref) (sp : Space) (idx : nat) :
  space_at s r sp ->
  Ref.bound Ref.get_high r idx s = (item (high sp) idx, s).
Proof.
  intros (l & h & Hr & Hl & Hh).
  unfold Ref.bound, Ref.get_high, Ref.get_array, Ref.bindM, Ref.deref.
  rewrite Hr; simpl. now rewrite Hh.
Qed.

Lemma ref_get_frame (s : Ref.store) (r : Ref.ref) (X : DataFrame) :
  frame_at s r X -> Ref.get_frame r s = (Ok X, s).
Proof.
  unfold frame_at, Ref.get_frame, Ref.bindM, Ref.deref. now intros ->.
Qed.

(** An iteration of the loop over the store computes what the iteration
    over values computes, and puts it in a new object. *)
Lemma ref_transform_body (float_repr : float -> string)
    (self : MinMaxNormalizer) (s : Ref.store) (input_space X : Ref.ref)
    (sp : Space) (df : DataFrame) (idx : nat) (column : string) :
  space_at s input_space sp ->
  frame_at s X df ->
  Ref.transform_body float_repr self input_space idx column X s =
  match transform_body float_repr self sp idx column df with
  | Ok df' => (Ok (List.length s), s ++ [Ref.Frame df'])
  | Raise e => (Raise e, s)
  end.
Proof.
  intros Hsp HX. unfold Ref.transform_body, transform_body.
  unfold Ref.bindM at 1. rewrite (ref_bound_low _ _ _ idx Hsp).
  destruct (item (low sp) idx) as [lo|e]; simpl; [|reflexivity].
  unfold Ref.bindM at 1. rewrite (ref_bound_high _ _ _ idx Hsp).
  destruct (item (high sp) idx) as [hi|e]; simpl; [|reflexivity].
  unfold Ref.bindM at 1. rewrite (ref_get_frame _ _ _ HX).
  unfold Ref.bindM, Ref.lift.
  destruct (normalized_column self df column lo hi) as [nc|e]; reflexivity.
Qed.

Lemma ref_transform_loop (float_repr : float -> string)
    (self : MinMaxNormalizer) (input_space : Ref.ref) (sp : Space)
    (cols : list string) :
  forall (idx : nat) (X : Ref.ref) (df : DataFrame) (s : Ref.store),
    space_at s input_space sp ->
    frame_at s X df ->
    exists t,
      snd (Ref.transform_loop float_repr self input_space idx cols X s) =
      (s ++ t)%list /\
      match transform_loop float_repr self sp idx cols df with
      | Ok df' =>
          exists X',
            fst (Ref.transform_loop float_repr self input_space idx cols X s) =
            Ok X' /\
            frame_at (s ++ t) X' df'
      | Raise e =>
          fst (Ref.transform_loop float_repr self input_space idx cols X s) =
          Raise e
      end.
Proof.
  induction cols as [|c cols IH]; intros idx X df s Hsp HX; simpl.
  - exists []. rewrite app_nil_r. split; [reflexivity|]. exists X. auto.
  - unfold Ref.bindM. rewrite (ref_transform_body _ _ _ _ _ _ _ _ _ Hsp HX).
    destruct (transform_body float_repr self sp idx c df) as [df1|e]; simpl.
    + destruct (IH (S idx) (List.length s) df1 (s ++ [Ref.Frame df1]))
        as (t & Hs & Hres).
      * now apply space_at_snoc.
      * apply nth_error_snoc_new.
      * exists (Ref.Frame df1 :: t). rewrite Hs, <- app_assoc. simpl.
        split; [reflexivity|].
        destruct (transform_loop float_repr self sp (S idx) cols df1) as [df'|e].
        -- destruct Hres as (X' & HX' & Hat). exists X'.
           rewrite <- app_assoc in Hat. auto.
        -- exact Hres.
    + exists []. rewrite app_nil_r. auto.
Qed.

(** [transform] over the store returns a reference to the table that
    [transform] over values returns, raises what it raises, and leaves the
    transformer in the same state. *)
Lemma ref_transform_refines (float_repr : float -> string)
    (self : MinMaxNormalizer) (input_space X : Ref.ref) (sp : Space)
    (df : DataFrame) (s : Ref.store) :
  space_at s input_space sp ->
  frame_at s X df ->
  fst (Ref.transform float_repr self X input_space s) =
  fst (transform float_repr self df sp) /\
  exists t,
    snd (snd (Ref.transform float_repr self X input_space s)) = (s ++ t)%list /\
    match snd (transform float_repr self df sp) with
    | Ok df' =>
        exists X',
          fst (snd (Ref.transform float_repr self X input_space s)) = Ok X' /\
          frame_at (s ++ t) X' df'
    | Raise e =>
        fst (snd (Ref.transform float_repr self X input_space s)) = Raise e
    end.
Proof.
  intros Hsp HX. unfold Ref.transform, transform, resolve, tracked_columns.
  destruct (columns self) as [cs|] eqn:Hc; simpl.
  - rewrite Hc. split; [reflexivity|].
    apply ref_transform_loop; assumption.
  - rewrite (ref_get_frame _ _ _ HX); simpl. split; [reflexivity|].
    apply ref_transform_loop; assumption.
Qed.

(** How the primitives run in a store that holds what they look for. *)
Lemma run_bind (A B : Type) (m : Ref.M A) (k : A -> Ref.M B) (a : A)
    (s s' : Ref.store) :
  m s = (Ok a, s') -> Ref.bindM m k s = k a s'.
Proof. unfold Ref.bindM. now intros ->. Qed.

Lemma run_get_shape (s : Ref.store) (r l h : Ref.ref) (sh : list Z) :
  nth_error s r = Some (Ref.SpaceObj sh l h) ->
  Ref.get_shape r s = (Ok sh, s).
Proof. unfold Ref.get_shape, Ref.bindM, Ref.deref. now intros ->. Qed.

Lemma run_get_low (s : Ref.store) (r l h : Ref.ref) (sh : list Z) :
  nth_error s r = Some (Ref.SpaceObj sh l h) ->
  Ref.get_low r s = (Ok l, s).
Proof. unfold Ref.get_low, Ref.bindM, Ref.deref. now intros ->. Qed.

Lemma run_get_high (s : Ref.store) (r l h : Ref.ref) (sh : list Z) :
  nth_error s r = Some (Ref.SpaceObj sh l h) ->
  Ref.get_high r s = (Ok h, s).
Proof. unfold Ref.get_high, Ref.bindM, Ref.deref. now intros ->. Qed.

Lemma run_set_shape (s : Ref.store) (r l h : Ref.ref) (sh sh' : list Z) :
  nth_error s r = Some (Ref.SpaceObj sh l h) ->
  Ref.set_shape r sh' s = (Ok tt, Ref.update r (Ref.SpaceObj sh' l h) s).
Proof. unfold Ref.set_shape, Ref.bindM, Ref.deref. now intros ->. Qed.

Lemma run_set_low (s : Ref.store) (r l h l' : Ref.ref) (sh : list Z) :
  nth_error s r = Some (Ref.SpaceObj sh l h) ->
  Ref.set_low r l' s = (Ok tt, Ref.update r (Ref.SpaceObj sh l' h) s).
Proof. unfold Ref.set_low, Ref.bindM, Ref.deref. now intros ->. Qed.

Lemma run_set_high (s : Ref.store) (r l h h' : Ref.ref) (sh : list Z) :
  nth_error s r = Some (Ref.SpaceObj sh l h) ->
  Ref.set_high r h' s = (Ok tt, Ref.update r (Ref.SpaceObj sh l h') s).
Proof. unfold Ref.set_high, Ref.bindM, Ref.deref. now intros ->. Qed.

Lemma run_np_append (s : Ref.store) (a : Ref.ref) (arr : list float) (v : float) :
  nth_error s a = Some (Ref.Ndarray arr) ->
  Ref.np_append a v s = (Ok (List.length s), s ++ [Ref.Ndarray (arr ++ [v])]).
Proof.
  unfold Ref.np_append, Ref.get_array, Ref.bindM, Ref.deref. now intros ->.
Qed.

Lemma run_copy (s : Ref.store) (r : Ref.ref) (o : Ref.object) :
  nth_error s r = Some o ->
  Ref.copy r s = (Ok (List.length s), s ++ [o]).
Proof. unfold Ref.copy, Ref.bindM, Ref.deref. now intros ->. Qed.

(** One round of the loop of [transform_space] over the store: two new
    arrays, to which the copy now refers. *)
Lemma ref_append_bounds (self : MinMaxNormalizer) (s : Ref.store)
    (out l h : Ref.ref) (sh : list Z) (lo hi : list float) :
  nth_error s out = Some (Ref.SpaceObj sh l h) ->
  nth_error s l = Some (Ref.Ndarray lo) ->
  nth_error s h = Some (Ref.Ndarray hi) ->
  exists s' l' h',
    Ref.append_bounds self out s = (Ok tt, s') /\
    nth_error s' out = Some (Ref.SpaceObj sh l' h') /\
    nth_error s' l' = Some (Ref.Ndarray (lo ++ [as_float (feature_min self)])) /\
    nth_error s' h' = Some (Ref.Ndarray (hi ++ [as_float (feature_max self)])) /\
    List.length s <= l' /\ List.length s <= h' /\
    List.length s <= List.length s'.
Proof.
  intros Hout Hl Hh.
  assert (Hlt : out < List.length s) by (apply nth_error_Some; congruence).
  assert (Hne : h <> out) by (intros ->; congruence).
  set (a1 := Ref.Ndarray (lo ++ [as_float (feature_min self)])).
  set (a2 := Ref.Ndarray (hi ++ [as_float (feature_max self)])).
  set (s1 := (s ++ [a1])%list).
  set (s2 := Ref.update out (Ref.SpaceObj sh (List.length s) h) s1).
  set (s3 := (s2 ++ [a2])%list).
  set (s4 := Ref.update out (Ref.SpaceObj sh (List.length s) (List.length s2)) s3).
  assert (Hlen1 : List.length s1 = S (List.length s))
    by (unfold s1; rewrite length_app; simpl; lia).
  assert (Hlen2 : List.length s2 = S (List.length s))
    by (unfold s2; now rewrite length_update).
  assert (Hlen3 : List.length s3 = S (S (List.length s)))
    by (unfold s3; rewrite length_app; simpl; lia).
  assert (H1out : nth_error s1 out = Some (Ref.SpaceObj sh l h))
    by (now apply nth_error_snoc_old).
  assert (H2out : nth_error s2 out = Some (Ref.SpaceObj sh (List.length s) h))
    by (unfold s2; apply nth_error_update_same; lia).
  assert (H2h : nth_error s2 h = Some (Ref.Ndarray hi)).
  { unfold s2. rewrite nth_error_update_other by auto.
    now apply nth_error_snoc_old. }
  assert (H3out : nth_error s3 out = Some (Ref.SpaceObj sh (List.length s) h))
    by (now apply nth_error_snoc_old).
  exists s4, (List.length s), (List.length s2).
  repeat split.
  - unfold Ref.append_bounds.
    rewrite (run_bind _ _ _ _ _ _ _ (run_get_low _ _ _ _ _ Hout)).
    rewrite (run_bind _ _ _ _ _ _ _ (run_np_append _ _ _ _ Hl)).
    rewrite (run_bind _ _ _ _ _ _ _ (run_set_low _ _ _ _ (List.length s) _ H1out)).
    rewrite (run_bind _ _ _ _ _ _ _ (run_get_high _ _ _ _ _ H2out)).
    rewrite (run_bind _ _ _ _ _ _ _ (run_np_append _ _ _ _ H2h)).
    apply (run_set_high _ _ _ _ _ _ H3out).
  - unfold s4. apply nth_error_update_same. lia.
  - unfold s4. rewrite nth_error_update_other by lia.
    unfold s3. rewrite nth_error_app1 by lia.
    unfold s2. rewrite nth_error_update_other by lia.
    apply nth_error_snoc_new.
  - unfold s4. rewrite nth_error_update_other by lia.
    apply nth_error_snoc_new.
  - lia.
  - lia.
  - unfold s4. rewrite length_update. lia.
Qed.

Lemma ref_for_each_append_bounds (self : MinMaxNormalizer) (out : Ref.ref)
    (sh : list Z) (m : nat) :
  forall (s : Ref.store) (l h : Ref.ref) (lo hi : list float),
    nth_error s out = Some (Ref.SpaceObj sh l h) ->
    nth_error s l = Some (Ref.Ndarray lo) ->
    nth_error s h = Some (Ref.Ndarray hi) ->
    exists s' l' h',
      Ref.for_each m (Ref.append_bounds self out) s = (Ok tt, s') /\
      nth_error s' out = Some (Ref.SpaceObj sh l' h') /\
      nth_error s' l' =
        Some (Ref.Ndarray (lo ++ repeat (as_float (feature_min self)) m)) /\
      nth_error s' h' =
        Some (Ref.Ndarray (hi ++ repeat (as_float (feature_max self)) m)) /\
      (m = 0 \/ (List.length s <= l' /\ List.length s <= h')).
Proof.
  induction m as [|m IH]; intros s l h lo hi Hout Hl Hh; simpl.
  - exists s, l, h. rewrite !app_nil_r. repeat split; auto.
  - destruct (ref_append_bounds self s out l h sh lo hi Hout Hl Hh)
      as (s1 & l1 & h1 & Hrun & Hout1 & Hl1 & Hh1 & Hfl & Hfh & Hlen).
    destruct (IH s1 l1 h1 _ _ Hout1 Hl1 Hh1)
      as (s' & l' & h' & Hrun' & Hout' & Hl' & Hh' & Hfresh).
    exists s', l', h'. unfold Ref.bindM. rewrite Hrun, Hrun'.
    rewrite <- !app_assoc in Hl', Hh'. simpl in Hl', Hh'.
    repeat split; auto. right.
    destruct Hfresh as [->|[? ?]].
    + simpl in Hrun'. injection Hrun' as <-.
      assert (l' = l1 /\ h' = h1) as [-> ->] by (split; congruence).
      auto.
    + lia.
Qed.

(** In append mode [transform_space] over the store returns a new
    descriptor that reads as the descriptor [transform_space] over values
    returns, with two new arrays, and raises what it raises. *)
Lemma ref_transform_space_refines (self : MinMaxNormalizer)
    (input_space : Ref.ref) (sp : Space) (column_names : list string)
    (s : Ref.store) :
  space_at s input_space sp ->
  inplace self = false ->
  match transform_space self sp column_names with
  | Ok sp' =>
      exists s' l h,
        Ref.transform_space self input_space column_names s =
          (Ok (List.length s), s') /\
        nth_error s' (List.length s) = Some (Ref.SpaceObj (shape sp') l h) /\
        nth_error s' l = Some (Ref.Ndarray (low sp')) /\
        nth_error s' h = Some (Ref.Ndarray (high sp')) /\
        List.length s <= l /\ List.length s <= h
  | Raise e =>
      exists s', Ref.transform_space self input_space column_names s = (Raise e, s')
  end.
Proof.
  intros (l & h & Hr & Hl & Hh) Hmode.
  unfold transform_space, Ref.transform_space. rewrite Hmode.
  rewrite (run_bind _ _ _ _ _ _ _ (run_copy _ _ _ Hr)).
  rewrite (run_bind _ _ _ _ _ _ _
             (run_get_shape _ _ _ _ _ (nth_error_snoc_old _ _ _ _ Hr))).
  destruct (shape sp) as [|shape_x shape_y] eqn:Hshape; simpl.
  { eexists. reflexivity. }
  destruct (columns_or_range self shape_x) as [cols|e] eqn:Hcols; simpl.
  2:{ eexists. reflexivity. }
  assert (Hpos : tracked_len cols <> 0).
  { unfold columns_or_range in Hcols.
    destruct (columns self) as [[|c cs]|]; try discriminate.
    injection Hcols as <-. simpl. lia. }
  set (sh' := ((shape_x + Z.of_nat (tracked_len cols))%Z :: shape_y)).
  set (s0 := (s ++ [Ref.SpaceObj (shape_x :: shape_y) l h])%list).
  set (s1 := Ref.update (List.length s) (Ref.SpaceObj sh' l h) s0).
  assert (Hlen0 : List.length s0 = S (List.length s)).
  { unfold s0. rewrite length_app. simpl. lia. }
  assert (Hlt : l < List.length s) by (apply nth_error_Some; congruence).
  assert (Hht : h < List.length s) by (apply nth_error_Some; congruence).
  destruct (ref_for_each_append_bounds self (List.length s) sh' (tracked_len cols)
              s1 l h (low sp) (high sp))
    as (s' & l' & h' & Hrun & Hout & Hl' & Hh' & Hfresh).
  { unfold s1. apply nth_error_update_same. lia. }
  { unfold s1. rewrite nth_error_update_other by lia.
    now apply nth_error_snoc_old. }
  { unfold s1. rewrite nth_error_update_other by lia.
    now apply nth_error_snoc_old. }
  rewrite for_each_append_bounds. simpl.
  assert (Hlen1 : List.length s1 = S (List.length s))
    by (unfold s1; now rewrite length_update).
  exists s', l', h'. repeat split; auto; try lia.
  assert (H0out : nth_error s0 (List.length s) =
                  Some (Ref.SpaceObj (shape_x :: shape_y) l h))
    by apply nth_error_snoc_new.
  rewrite (run_bind _ _ _ _ _ s0 s0 (eq_refl (Ok cols, s0))).
  rewrite (run_bind _ _ _ _ _ _ _ (run_set_shape _ _ _ _ _ sh' H0out)).
  fold s1.
  rewrite (run_bind _ _ _ _ _ _ _ Hrun). reflexivity.
Qed.

(** ** What the caller's store holds after a call *)

Lemma keeps_unchanged (A : Type) (m : Ref.M A) (post : A -> Prop)
    (s s' : Ref.store) (r : result A) :
  keeps (List.length s) m post ->
  m s = (r, s') ->
  forall x, allocated s x -> nth_error s' x = nth_error s x.
Proof.
  intros Hk Hrun. destruct (Hk s s' r (le_n _) Hrun) as (H1 & H2 & H3).
  intros x Hx. eapply firstn_nth_error; eauto.
Qed.

Lemma keeps_result (A : Type) (m : Ref.M A) (post : A -> Prop)
    (s s' : Ref.store) (a : A) :
  keeps (List.length s) m post ->
  m s = (Ok a, s') ->
  post a.
Proof.
  intros Hk Hrun. destruct (Hk s s' _ (le_n _) Hrun) as (H1 & H2 & H3). auto.
Qed.

Lemma space_at_allocated (s s' : Ref.store) (r : Ref.ref) (sp : Space) :
  (forall x, allocated s x -> nth_error s' x = nth_error s x) ->
  space_at s r sp -> space_at s' r sp.
Proof.
  intros H (l & h & Hr & Hl & Hh). exists l, h.
  repeat split; (rewrite H; [assumption|]);
    apply nth_error_Some; congruence.
Qed.

Lemma frame_at_allocated (s s' : Ref.store) (r : Ref.ref) (X : DataFrame) :
  (forall x, allocated s x -> nth_error s' x = nth_error s x) ->
  frame_at s r X -> frame_at s' r X.
Proof.
  unfold frame_at. intros H Hr. rewrite H; [assumption|].
  apply nth_error_Some. congruence.
Qed.

Lemma keeps_transform_space_result (n : nat) (self : MinMaxNormalizer)
    (input_space : Ref.ref) (column_names : list string) :
  keeps n (Ref.transform_space self input_space column_names)
        (fun out => if inplace self then out = input_space else n <= out).
Proof.
  unfold Ref.transform_space. destruct (inplace self).
  - now apply keeps_ret.
  - eapply keeps_bind; [apply keeps_copy|]. intros out Hout.
    eapply keeps_bind; [apply keeps_get_shape|]. intros [|shape_x shape_y] _.
    + apply keeps_raise.
    + eapply keeps_bind; [apply keeps_lift|]. intros cols _.
      eapply keeps_bind; [now apply keeps_set_shape|]. intros _ _.
      eapply keeps_bind.
      * apply keeps_for_each. now apply keeps_append_bounds.
      * intros _ _. now apply keeps_ret.
Qed.

Lemma keeps_transform_body (float_repr : float -> string) (n : nat)
    (self : MinMaxNormalizer) (input_space : Ref.ref) (idx : nat)
    (column : string) (X : Ref.ref) :
  keeps n (Ref.transform_body float_repr self input_space idx column X)
        (fun X' => n <= X').
Proof.
  assert (Hbound : forall get, (forall r, keeps n (get r) (fun _ => True)) ->
                               keeps n (Ref.bound get input_space idx) (fun _ => True)).
  { intros get Hget. unfold Ref.bound.
    do 2 (eapply keeps_bind; [solve [auto with keeps] | intros ? _]).
    apply keeps_lift. }
  unfold Ref.transform_body.
  do 4 (eapply keeps_bind; [solve [auto with keeps] | intros ? _]).
  apply keeps_alloc.
Qed.

Lemma keeps_transform_loop_result (float_repr : float -> string) (n : nat)
    (self : MinMaxNormalizer) (input_space : Ref.ref) (cols : list string) :
  forall (idx : nat) (X : Ref.ref),
    keeps n (Ref.transform_loop float_repr self input_space idx cols X)
          (fun X' => match cols with [] => X' = X | _ :: _ => n <= X' end).
Proof.
  induction cols as [|c cols IH]; intros idx X; simpl.
  - now apply keeps_ret.
  - eapply keeps_bind; [apply keeps_transform_body|].
    intros X1 HX1. eapply keeps_weaken; [apply IH|].
    intros X'. simpl. destruct cols; [intros ->|]; auto.
Qed.

Lemma ref_get_frame_store (X : Ref.ref) (s s1 : Ref.store)
    (x : result DataFrame) :
  Ref.get_frame X s = (x, s1) -> s1 = s.
Proof.
  unfold Ref.get_frame, Ref.bindM, Ref.deref.
  destruct (nth_error s X) as [[| |]|]; now intros [= ? <-].
Qed.

(** [transform] over the store is its loop over the resolved columns,
    unless the table cannot be read. *)
Lemma ref_transform_cases (float_repr : float -> string)
    (self self' : MinMaxNormalizer) (X input_space : Ref.ref)
    (s s' : Ref.store) (r : result Ref.ref) :
  Ref.transform float_repr self X input_space s = (self', (r, s')) ->
  Ref.transform_loop float_repr self' input_space 0 (tracked_columns self') X s
    = (r, s') \/
  (tracked_columns self' = [] /\ s' = s /\ exists e, r = Raise e).
Proof.
  unfold Ref.transform, tracked_columns.
  destruct (columns self) as [cs|] eqn:Hc.
  - intros [= <- H]. left. now rewrite Hc.
  - destruct (Ref.get_frame X s) as [[df|e] s1] eqn:E;
      apply ref_get_frame_store in E; subst s1.
    + intros [= <- H]. left. exact H.
    + intros [= <- <- <-]. right. rewrite Hc. eauto.
Qed.

(** C7 (amended): neither method changes an object of the caller's store,
    whatever the outcome: the input descriptor keeps its shape and its two
    arrays, the input table its columns.  In append mode [transform_space]
    returns a new descriptor with new arrays; in place it returns the input
    descriptor itself.  [transform] returns a new table when a column is
    tracked, and the input table itself when none is. *)
Theorem caller_objects_unchanged :
  forall (float_repr : float -> string) (self : MinMaxNormalizer)
         (X input_space : Ref.ref) (column_names : list string)
         (s : Ref.store),
    (forall r s',
        Ref.transform_space self input_space column_names s = (r, s') ->
        (forall x, allocated s x -> nth_error s' x = nth_error s x) /\
        (forall sp, space_at s input_space sp -> space_at s' input_space sp) /\
        (forall out, r = Ok out ->
           if inplace self then out = input_space /\ s' = s
           else ~ allocated s out)) /\
    (forall sp out s',
        space_at s input_space sp ->
        inplace self = false ->
        Ref.transform_space self input_space column_names s = (Ok out, s') ->
        exists sh l h,
          nth_error s' out = Some (Ref.SpaceObj sh l h) /\
          ~ allocated s l /\ ~ allocated s h) /\
    (forall self' r s',
        Ref.transform float_repr self X input_space s = (self', (r, s')) ->
        (forall x, allocated s x -> nth_error s' x = nth_error s x) /\
        (forall df, frame_at s X df -> frame_at s' X df) /\
        (forall X', r = Ok X' ->
           match tracked_columns self' with
           | [] => X' = X /\ s' = s
           | _ :: _ => ~ allocated s X'
           end)).
Proof.
  intros float_repr self X input_space names s. split; [|split].
  - intros r s' H.
    assert (Hsame : forall x, allocated s x -> nth_error s' x = nth_error s x)
      by (eapply keeps_unchanged; [apply keeps_transform_space | exact H]).
    split; [exact Hsame | split].
    + intros sp. now apply space_at_allocated.
    + intros out ->.
      pose proof (keeps_result _ _ _ _ _ _
                    (keeps_transform_space_result (List.length s) self
                       input_space names) H) as Hres.
      simpl in Hres. destruct (inplace self) eqn:E.
      * split; [exact Hres|].
        unfold Ref.transform_space in H. rewrite E in H. now injection H.
      * unfold allocated. lia.
  - intros sp out s' Hsp Hmode Hrun.
    pose proof (ref_transform_space_refines self input_space sp names s Hsp Hmode)
      as Href.
    destruct (transform_space self sp names) as [sp'|e].
    + destruct Href as (s1 & l & h & Hrun1 & Hout & _ & _ & Hl & Hh).
      rewrite Hrun in Hrun1. injection Hrun1 as -> ->.
      exists (shape sp'), l, h. unfold allocated. repeat split; auto; lia.
    + destruct Href as (s1 & Hrun1). rewrite Hrun in Hrun1. discriminate.
  - intros self' r s' H.
    apply ref_transform_cases in H. destruct H as [H|(Hcs & -> & e & ->)].
    + assert (Hsame : forall x, allocated s x -> nth_error s' x = nth_error s x)
        by (eapply keeps_unchanged; [apply keeps_transform_loop | exact H]).
      split; [exact Hsame | split].
      * intros df. now apply frame_at_allocated.
      * intros X' ->.
        pose proof (keeps_result _ _ _ _ _ _
                      (keeps_transform_loop_result float_repr (List.length s)
                         self' input_space (tracked_columns self') 0 X) H)
          as Hres.
        simpl in Hres.
        destruct (tracked_columns self'); [|unfold allocated; lia].
        split; [exact Hres|]. simpl in H. now injection H.
    + split; [auto | split]; [auto|]. intros X' [=].
Qed.

(** C9: in place, [transform_space] returns its input: the same value,
    and over the store the same object in an unchanged store. *)
Theorem transform_space_inplace :
  forall (cols : option (list string)) (fmin fmax : pynum) (sp : Space)
         (column_names : list string) (r : Ref.ref) (s : Ref.store),
    transform_space (mkNormalizer cols true fmin fmax) sp column_names = Ok sp /\
    Ref.transform_space (mkNormalizer cols true fmin fmax) r column_names s =
    (Ok r, s).
Proof. intros. split; reflexivity. Qed.

(** * The scenarios *)



(** Scenario B under C2: bounds 5 and 5, three rows, the defaults. *)
Lemma transform_degenerate_witness :
  1 <= index_len price_table /\
  getitem {| index_len := 3;
             data := [("price"%string,
                       [0.33333333333333331; 0.33333333333333331;
                        0.33333333333333331]%float)] |}
          (destination no_float_repr price_normalizer "price") =
  Ok (repeat
        (PrimFloat.mul
           (PrimFloat.div 1%float (float_of_int (Z.of_nat (index_len price_table))))
           (as_float (scale price_normalizer)))
        (index_len price_table)).
Proof.
  apply (transform_degenerate no_float_repr price_normalizer price_normalizer
           price_table
           {| index_len := 3;
              data := [("price"%string,
                        [0.33333333333333331; 0.33333333333333331;
                         0.33333333333333331]%float)] |}
           (price_space 5 5) [] [] "price" 5 5).
  - reflexivity.
  - reflexivity.
  - reflexivity.
  - reflexivity.
  - reflexivity.
  - repeat constructor.
  - intros k [].
Defined.

(** C2, the claim as stated fails: with [feature_max = 5] and three rows
    every row is [(1/3) * 5 = 1.6666666666666665], not
    [5 / 3 = 1.6666666666666667]. *)
Lemma degenerate_value_differs :
  PrimFloat.eqb (PrimFloat.sub 5 5) 0 = true /\
  snd (transform no_float_repr five_normalizer price_table (price_space 5 5)) =
    Ok {| index_len := 3;
          data := [("price"%string,
                    [1.6666666666666665; 1.6666666666666665;
                     1.6666666666666665]%float)] |} /\
  int_truediv 5 (Z.of_nat (index_len price_table)) = Ok 1.6666666666666667%float /\
  1.6666666666666665%float <> 1.6666666666666667%float.
Proof.
  repeat split; try reflexivity. intro H; discriminate H.
Qed.






(** C7, the claim as stated fails: in place, [transform_space] returns
    the reference it was given, an object of the caller's store, and no
    new object. *)
Lemma inplace_returns_the_input_object :
  Ref.transform_space lazy_normalizer 2 [] price_store = (Ok 2, price_store) /\
  allocated price_store 2.
Proof.
  split; [reflexivity | unfold allocated; simpl; lia].
Qed.

(** The store of the first scenario, after [transform_space] in append
    mode: a new descriptor at 4 with new arrays at 5 and 6, the four objects
    of the caller as they were. *)
Example append_mode_on_price_store :
  Ref.transform_space
    (mkNormalizer (Some ["price"%string]) false (PyInt 0) (PyInt 1))
    2 [] price_store =
  (Ok 4,
   price_store ++
   [Ref.SpaceObj [2%Z] 5 6; Ref.Ndarray [10; 0]%float;
    Ref.Ndarray [30; 1]%float]).
Proof. reflexivity. Qed.

(** The same store after [transform] in place: a new table at 4, the
    table at 3 as it was. *)
Example transform_on_price_store :
  Ref.transform no_float_repr price_normalizer 3 2 price_store =
  (price_normalizer,
   (Ok 4,
    price_store ++
    [Ref.Frame {| index_len := 3;
                  data := [("price"%string, [0; 0.5; 1]%float)] |}])).
Proof. reflexivity. Qed.

(** * Further properties of the two methods *)

(** ** Rows, names and untouched columns *)

Section Shape.

Variable float_repr : float -> string.
Variable self : MinMaxNormalizer.
Variable input_space : Space.

(** An iteration that goes through has found its column. *)
Lemma transform_body_present (idx : nat) (column : string) (X X' : DataFrame) :
  transform_body float_repr self input_space idx column X = Ok X' ->
  In column (df_columns X).
Proof.
  intros H. apply transform_body_Ok in H.
  destruct H as (lo & hi & nc & _ & _ & Hnc & _).
  apply normalized_column_Ok in Hnc. destruct Hnc as (s & Hs & _).
  apply getitem_Ok, lookup_Some_In in Hs. apply Hs.
Qed.

(** Writing to a name the table has leaves the names as they are. *)
Lemma transform_body_same_names (idx : nat) (column : string) (X X' : DataFrame) :
  transform_body float_repr self input_space idx column X = Ok X' ->
  In (destination float_repr self column) (df_columns X) ->
  df_columns X' = df_columns X.
Proof.
  intros H Hin. apply transform_body_Ok in H.
  destruct H as (lo & hi & nc & _ & _ & _ & ->).
  unfold df_columns, assign; simpl. now apply names_set_col_present.
Qed.

Lemma transform_loop_same_names (cols : list string) :
  forall (idx : nat) (X X' : DataFrame),
    transform_loop float_repr self input_space idx cols X = Ok X' ->
    (forall k, In k cols -> In (destination float_repr self k) (df_columns X)) ->
    df_columns X' = df_columns X.
Proof.
  induction cols as [|c cols IH]; intros idx X X'; simpl.
  - now intros [= ->].
  - destruct (transform_body float_repr self input_space idx c X) as [X1|e] eqn:E;
      simpl; [|discriminate].
    intros H Hin.
    assert (H1 : df_columns X1 = df_columns X)
      by (eapply transform_body_same_names; eauto).
    rewrite <- H1. eapply IH; [exact H|].
    intros k Hk. rewrite H1. auto.
Qed.

(** In place, every iteration writes to the column it has just read. *)
Lemma transform_loop_inplace_names (cols : list string) :
  inplace self = true ->
  forall (idx : nat) (X X' : DataFrame),
    transform_loop float_repr self input_space idx cols X = Ok X' ->
    df_columns X' = df_columns X.
Proof.
  intros Hmode. induction cols as [|c cols IH]; intros idx X X'; simpl.
  - now intros [= ->].
  - destruct (transform_body float_repr self input_space idx c X) as [X1|e] eqn:E;
      simpl; [|discriminate].
    intros H. rewrite (IH _ _ _ H).
    eapply transform_body_same_names; [exact E|].
    unfold destination. rewrite Hmode.
    eapply transform_body_present; eauto.
Qed.

End Shape.

Lemma resolve_inplace (self : MinMaxNormalizer) (X : DataFrame) :
  inplace (resolve self X) = inplace self.
Proof. unfold resolve. now destruct (columns self). Qed.

Lemma resolve_resolved (self : MinMaxNormalizer) (X Y : DataFrame) :
  resolve (resolve self X) Y = resolve self X.
Proof. unfold resolve. destruct (columns self) eqn:E; simpl; now rewrite ?E. Qed.

(** X2: whenever [transform] returns, the table it returns has the row
    count of its input, and its columns span the index if the input's
    do. *)
Theorem transform_keeps_rows :
  forall (float_repr : float -> string) (self self' : MinMaxNormalizer)
         (X X' : DataFrame) (input_space : Space),
    transform float_repr self X input_space = (self', Ok X') ->
    index_len X' = index_len X /\ (well_formed X -> well_formed X').
Proof.
  intros float_repr self self' X X' sp H.
  apply transform_Ok in H. destruct H as [_ H]. split.
  - eapply transform_loop_index_len; eauto.
  - eapply transform_loop_well_formed; eauto.
Qed.

(** X3: in place, the table [transform] returns has the column names of
    its input in the same order, and every column that is not tracked
    holds what it held. *)
Theorem transform_inplace_frame :
  forall (float_repr : float -> string) (self self' : MinMaxNormalizer)
         (X X' : DataFrame) (input_space : Space),
    inplace self = true ->
    transform float_repr self X input_space = (self', Ok X') ->
    df_columns X' = df_columns X /\
    forall c, ~ In c (tracked_columns self') -> getitem X' c = getitem X c.
Proof.
  intros float_repr self self' X X' sp Hmode H.
  apply transform_Ok in H. destruct H as [-> H].
  assert (Hmode' : inplace (resolve self X) = true)
    by now rewrite resolve_inplace.
  split.
  - eapply transform_loop_inplace_names; eauto.
  - intros c Hc. eapply transform_loop_frame; [exact H|].
    intros k Hk. unfold destination. rewrite Hmode'. intros ->. auto.
Qed.

(** ** Which exception, and when *)

Section Exceptions.

Variable float_repr : float -> string.
Variable self : MinMaxNormalizer.
Variable input_space : Space.

(** How one iteration can fail. *)
Lemma transform_body_raises (idx : nat) (column : string) (X : DataFrame)
    (e : exn) :
  transform_body float_repr self input_space idx column X = Raise e ->
  (e = KeyError column /\ ~ In column (df_columns X)) \/
  (e = IndexError idx /\
   (List.length (low input_space) <= idx \/
    List.length (high input_space) <= idx)) \/
  (e = ZeroDivisionError /\ getitem X column = Ok []).
Proof.
  unfold transform_body, item.
  destruct (nth_error (low input_space) idx) as [lo|] eqn:Hlo; simpl.
  2:{ intros [= <-]. right; left. apply nth_error_None in Hlo. auto. }
  destruct (nth_error (high input_space) idx) as [hi|] eqn:Hhi; simpl.
  2:{ intros [= <-]. right; left. apply nth_error_None in Hhi. auto. }
  unfold normalized_column.
  destruct (getitem X column) as [s|e'] eqn:Hs.
  - destruct (PrimFloat.eqb (PrimFloat.sub hi lo) 0%float); simpl;
      [|discriminate].
    unfold int_truediv.
    destruct (Z.eqb_spec (Z.of_nat (List.length s)) 0) as [Hz|Hz]; simpl;
      [|discriminate].
    intros [= <-]. right; right. split; [reflexivity|].
    destruct s; [reflexivity | simpl in Hz; lia].
  - assert (He : e' = KeyError column /\ ~ In column (df_columns X)).
    { revert Hs. unfold getitem.
      destruct (lookup column (data X)) eqn:E; [discriminate|].
      intros [= <-]. split; [reflexivity|]. now apply lookup_None. }
    destruct He as [-> Hc].
    destruct (PrimFloat.eqb (PrimFloat.sub hi lo) 0%float); simpl;
      intros [= <-]; auto.
Qed.

Lemma transform_loop_raises (cols : list string) :
  forall (idx : nat) (X : DataFrame) (e : exn),
    transform_loop float_repr self input_space idx cols X = Raise e ->
    (exists c, e = KeyError c /\ In c cols /\ ~ In c (df_columns X)) \/
    (exists i, e = IndexError i /\ idx <= i < idx + List.length cols /\
               (List.length (low input_space) <= i \/
                List.length (high input_space) <= i)) \/
    (e = ZeroDivisionError /\ (well_formed X -> index_len X = 0)).
Proof.
  induction cols as [|c cols IH]; intros idx X e; simpl; [discriminate|].
  destruct (transform_body float_repr self input_space idx c X) as [X1|e1] eqn:E;
    simpl.
  - intros H. apply IH in H.
    destruct H as [(k & -> & Hk & Hnot)|[(i & -> & Hi & Hlen)|(-> & Hz)]].
    + left. exists k. repeat split; auto.
      intros Hin. apply Hnot.
      apply (transform_body_names _ _ _ _ _ _ _ E). auto.
    + right; left. exists i. repeat split; auto; lia.
    + right; right. split; [reflexivity|]. intros Hwf.
      rewrite <- (transform_body_index_len _ _ _ _ _ _ _ E). apply Hz.
      eapply transform_body_well_formed; eauto.
  - intros [= <-]. apply transform_body_raises in E.
    destruct E as [(-> & Hnot)|[(-> & Hlen)|(-> & Hs)]].
    + left. exists c. auto.
    + right; left. exists idx. repeat split; auto; lia.
    + right; right. split; [reflexivity|]. intros Hwf.
      now rewrite <- (well_formed_length X c [] Hwf Hs).
Qed.

(** The bounds are read before the column: past the shorter of the two
    bound arrays the loop stops with [IndexError], whether or not the
    column is there. *)
Lemma transform_loop_index_error (pre post : list string) (c : string)
    (X : DataFrame) :
  List.length pre =
    Nat.min (List.length (low input_space)) (List.length (high input_space)) ->
  well_formed X -> 1 <= index_len X ->
  (forall k, In k pre -> In k (df_columns X)) ->
  transform_loop float_repr self input_space 0 (pre ++ c :: post) X =
  Raise (IndexError (List.length pre)).
Proof.
  intros Hmin Hwf Hrows Hin. rewrite transform_loop_app.
  destruct (transform_loop_total float_repr self input_space pre 0 X)
    as [X1 HX1]; auto; try lia.
  rewrite HX1; simpl. rewrite Nat.add_0_r.
  unfold transform_body, item.
  destruct (nth_error (low input_space) (List.length pre)) as [lo|] eqn:Hlo;
    simpl; [|reflexivity].
  destruct (nth_error (high input_space) (List.length pre)) as [hi|] eqn:Hhi;
    simpl; [|reflexivity].
  assert (List.length pre < List.length (low input_space))
    by (apply nth_error_Some; congruence).
  assert (List.length pre < List.length (high input_space))
    by (apply nth_error_Some; congruence).
  lia.
Qed.

(** Without a row, the loop still goes through when no tracked position
    is degenerate. *)
Lemma transform_loop_zero_rows_total (cols : list string) :
  forall (idx : nat) (X : DataFrame),
    well_formed X -> index_len X = 0 ->
    idx + List.length cols <= List.length (low input_space) ->
    idx + List.length cols <= List.length (high input_space) ->
    (forall k, In k cols -> In k (df_columns X)) ->
    (forall i lo hi,
        idx <= i < idx + List.length cols ->
        nth_error (low input_space) i = Some lo ->
        nth_error (high input_space) i = Some hi ->
        PrimFloat.eqb (PrimFloat.sub hi lo) 0%float = false) ->
    exists X', transform_loop float_repr self input_space idx cols X = Ok X'.
Proof.
  induction cols as [|k cols IH]; intros idx X Hwf Hrows Hlo Hhi Hin Hnd; simpl.
  - eauto.
  - simpl in Hlo, Hhi.
    destruct (nth_error_lt (low input_space) idx) as [lo Hlo']; [lia|].
    destruct (nth_error_lt (high input_space) idx) as [hi Hhi']; [lia|].
    destruct (getitem_present X k) as [s Hs]; [apply Hin; simpl; auto|].
    destruct (transform_body_total float_repr self input_space idx k X _ _ _
                Hlo' Hhi' Hs) as [X1 HX1].
    { right. apply (Hnd idx); auto. simpl. lia. }
    rewrite HX1; simpl. apply IH.
    + eapply transform_body_well_formed; eauto.
    + erewrite transform_body_index_len; eauto.
    + lia.
    + lia.
    + intros c Hc. apply (transform_body_names _ _ _ _ _ _ _ HX1).
      right. apply Hin. simpl; auto.
    + intros i lo' hi' Hi. apply Hnd. simpl. lia.
Qed.

End Exceptions.




(** ** Synthesized names *)

Lemma string_length_append (s t : string) :
  String.length (s ++ t) = String.length s + String.length t.
Proof. induction s as [|a s IH]; simpl; auto. Qed.

(** A common suffix can be dropped. *)
Lemma string_append_cancel (t : string) :
  forall s s' : string, (s ++ t)%string = (s' ++ t)%string -> s = s'.
Proof.
  induction s as [|a s IH]; intros [|a' s'] H; simpl in H.
  - reflexivity.
  - apply (f_equal String.length) in H. simpl in H.
    rewrite string_length_append in H. lia.
  - apply (f_equal String.length) in H. simpl in H.
    rewrite string_length_append in H. lia.
  - injection H as -> H. f_equal. now apply IH.
Qed.

Lemma minmax_name_injective (float_repr : float -> string)
    (self : MinMaxNormalizer) (c c' : string) :
  minmax_name float_repr self c = minmax_name float_repr self c' -> c = c'.
Proof. unfold minmax_name. apply string_append_cancel. Qed.

Lemma destination_injective (float_repr : float -> string)
    (self : MinMaxNormalizer) (c c' : string) :
  destination float_repr self c = destination float_repr self c' -> c = c'.
Proof.
  unfold destination. destruct (inplace self); auto.
  apply minmax_name_injective.
Qed.

Lemma destinations_distinct (float_repr : float -> string)
    (self : MinMaxNormalizer) (cols : list string) :
  NoDup cols -> NoDup (map (destination float_repr self) cols).
Proof.
  intros H. induction H as [|c cols Hc Hnd IH]; simpl.
  - constructor.
  - constructor; [|exact IH].
    intros Hin. apply in_map_iff in Hin. destruct Hin as (c' & Heq & Hc').
    apply destination_injective in Heq. subst c'. contradiction.
Qed.

(** X7: distinct tracked columns are written to distinct columns: the
    names that append mode synthesizes for a list of distinct columns are
    distinct. *)
Theorem minmax_names_distinct :
  forall (float_repr : float -> string) (self : MinMaxNormalizer)
         (cols : list string),
    NoDup cols -> NoDup (map (minmax_name float_repr self) cols).
Proof.
  intros float_repr self cols H. induction H as [|c cols Hc Hnd IH]; simpl.
  - constructor.
  - constructor; [|exact IH].
    intros Hin. apply in_map_iff in Hin. destruct Hin as (c' & Heq & Hc').
    apply minmax_name_injective in Heq. subst c'. contradiction.
Qed.

Section Appended.

Variable float_repr : float -> string.
Variable self : MinMaxNormalizer.
Variable input_space : Space.

(** When the destinations are distinct and new, the loop adds them after
    the columns of the table, in the order of the tracked columns. *)
Lemma transform_loop_new_names (cols : list string) :
  forall (idx : nat) (X X' : DataFrame),
    transform_loop float_repr self input_space idx cols X = Ok X' ->
    NoDup (map (destination float_repr self) cols) ->
    (forall k, In k cols ->
               ~ In (destination float_repr self k) (df_columns X)) ->
    df_columns X' =
    (df_columns X ++ map (destination float_repr self) cols)%list.
Proof.
  induction cols as [|c cols IH]; intros idx X X'; simpl.
  - intros [= ->] _ _. now rewrite app_nil_r.
  - destruct (transform_body float_repr self input_space idx c X) as [X1|e] eqn:E;
      simpl; [|discriminate].
    intros H Hnd Hnew. inversion Hnd as [|d ds Hd Hds]; subst.
    assert (H1 : df_columns X1 =
                 (df_columns X ++ [destination float_repr self c])%list).
    { apply transform_body_Ok in E.
      destruct E as (lo & hi & nc & _ & _ & _ & ->).
      unfold df_columns, assign; simpl. apply names_set_col_absent.
      apply Hnew. auto. }
    rewrite (IH _ _ _ H Hds).
    + rewrite H1, <- app_assoc. reflexivity.
    + intros k Hk. rewrite H1, in_app_iff. simpl.
      intros [Hin|[Heq|[]]].
      * apply (Hnew k); auto.
      * apply Hd. rewrite Heq. now apply in_map.
Qed.

End Appended.

(** X8: in append mode with distinct tracked columns none of whose
    synthesized names is a column of the input table, the table
    [transform] returns has the input's columns followed by the
    synthesized columns in the order of the tracked columns; and the first
    shape entry of the descriptor [transform_space] returns has grown by as
    many dimensions as the table has gained columns. *)
Theorem append_mode_widths_agree :
  forall (float_repr : float -> string) (self self' : MinMaxNormalizer)
         (X X' : DataFrame) (input_space output_space : Space)
         (cols column_names : list string) (shape_x : Z) (shape_y : list Z),
    inplace self = false ->
    columns self = Some cols ->
    NoDup cols ->
    (forall k, In k cols -> ~ In (minmax_name float_repr self k) (df_columns X)) ->
    shape input_space = shape_x :: shape_y ->
    transform float_repr self X input_space = (self', Ok X') ->
    transform_space self input_space column_names = Ok output_space ->
    df_columns X' =
      (df_columns X ++ map (minmax_name float_repr self) cols)%list /\
    shape output_space =
      (shape_x + Z.of_nat (List.length (df_columns X'))
               - Z.of_nat (List.length (df_columns X)))%Z :: shape_y.
Proof.
  intros float_repr self self' X X' sp sp' cols names shape_x shape_y
         Hmode Hcols Hnd Hnew Hshape Ht Hts.
  assert (Hdest : forall k, destination float_repr self k =
                            minmax_name float_repr self k)
    by (intros k; unfold destination; now rewrite Hmode).
  apply transform_Ok in Ht. destruct Ht as [-> Hloop].
  assert (Hres : resolve self X = self)
    by (unfold resolve; now rewrite Hcols).
  rewrite Hres in Hloop. unfold tracked_columns in Hloop. rewrite Hcols in Hloop.
  assert (Hnames : df_columns X' =
                   (df_columns X ++ map (minmax_name float_repr self) cols)%list).
  { rewrite (transform_loop_new_names _ _ _ _ _ _ _ Hloop).
    - f_equal. apply map_ext. exact Hdest.
    - now apply destinations_distinct.
    - intros k Hk. rewrite Hdest. auto. }
  split; [exact Hnames|].
  revert Hts. unfold transform_space. rewrite Hmode, Hshape.
  unfold columns_or_range. rewrite Hcols.
  destruct cols as [|c cs]; simpl; [discriminate|].
  intros [= <-]. rewrite for_each_append_bounds. simpl.
  rewrite Hnames, length_app, length_map. simpl. f_equal. lia.
Qed.

(** ** Calling again *)

Section Again.

Variable float_repr : float -> string.
Variable self : MinMaxNormalizer.
Variable input_space : Space.

(** What the loop leaves in the destination of a column whose bounds do
    not coincide, read in the table the loop returns. *)
Lemma transform_loop_written (pre post : list string) (column : string)
    (X X' : DataFrame) (lo hi : float) :
  transform_loop float_repr self input_space 0 (pre ++ column :: post) X = Ok X' ->
  nth_error (low input_space) (List.length pre) = Some lo ->
  nth_error (high input_space) (List.length pre) = Some hi ->
  PrimFloat.eqb (PrimFloat.sub hi lo) 0%float = false ->
  (forall k, In k pre -> destination float_repr self k <> column) ->
  (forall k, In k post ->
             destination float_repr self k <> destination float_repr self column) ->
  exists s,
    getitem X column = Ok s /\
    getitem X' (destination float_repr self column) =
    Ok (map (fun v =>
               PrimFloat.mul
                 (PrimFloat.div (PrimFloat.sub v lo) (PrimFloat.sub hi lo))
                 (as_float (scale self))) s).
Proof.
  intros Hloop Hlo Hhi Hnd Hpre Hpost.
  apply transform_loop_split in Hloop.
  destruct Hloop as (X1 & X2 & H1 & H2 & H3).
  assert (Hsrc : getitem X1 column = getitem X column)
    by (eapply transform_loop_frame; eauto).
  assert (Hdst : getitem X' (destination float_repr self column) =
                 getitem X2 (destination float_repr self column))
    by (eapply transform_loop_frame; eauto).
  apply transform_body_Ok in H2.
  destruct H2 as (lo' & hi' & nc & Hlo' & Hhi' & Hnc & ->).
  assert (lo' = lo) by congruence. assert (hi' = hi) by congruence. subst lo' hi'.
  apply normalized_column_Ok in Hnc. destruct Hnc as (s & Hs & Hnc).
  rewrite Hnd in Hnc. subst nc.
  rewrite getitem_assign_same in Hdst. simpl in Hdst.
  exists s. rewrite <- Hsrc, Hdst. auto.
Qed.

End Again.


(** X11: the columns of the table a call returns are final: a further
    call of the same transformer on that table, in either mode and with any
    descriptor, returns a table with the same column names in the same
    order. *)
Theorem transform_again_keeps_columns :
  forall (float_repr : float -> string) (self self1 self2 : MinMaxNormalizer)
         (X X1 X2 : DataFrame) (sp1 sp2 : Space),
    transform float_repr self X sp1 = (self1, Ok X1) ->
    transform float_repr self1 X1 sp2 = (self2, Ok X2) ->
    df_columns X2 = df_columns X1.
Proof.
  intros float_repr self self1 self2 X X1 X2 sp1 sp2 Ht1 Ht2.
  apply transform_Ok in Ht1. destruct Ht1 as [Hself1 Hloop1].
  apply transform_Ok in Ht2. destruct Ht2 as [Hself2 Hloop2].
  rewrite Hself1, resolve_resolved in Hself2. rewrite <- Hself1 in Hself2.
  subst self2.
  eapply transform_loop_same_names; [exact Hloop2|].
  intros k Hk.
  apply (transform_loop_names _ _ _ _ _ _ _ Hloop1).
  right. now apply in_map.
Qed.

(** ** The descriptor *)

(** X10: a descriptor whose [low] and [high] have as many entries as its
    first shape entry says keeps that property under [transform_space], in
    either mode. *)
Theorem transform_space_keeps_dimension :
  forall (self : MinMaxNormalizer) (input_space output_space : Space)
         (column_names : list string) (shape_x : Z) (shape_y : list Z),
    transform_space self input_space column_names = Ok output_space ->
    shape input_space = shape_x :: shape_y ->
    Z.of_nat (List.length (low input_space)) = shape_x ->
    Z.of_nat (List.length (high input_space)) = shape_x ->
    exists shape_x',
      shape output_space = shape_x' :: shape_y /\
      Z.of_nat (List.length (low output_space)) = shape_x' /\
      Z.of_nat (List.length (high output_space)) = shape_x'.
Proof.
  intros self sp sp' names shape_x shape_y Hts Hshape Hlo Hhi.
  revert Hts. unfold transform_space.
  destruct (inplace self).
  - intros [= <-]. exists shape_x. auto.
  - rewrite Hshape.
    destruct (columns_or_range self shape_x) as [cols|e]; simpl; [|discriminate].
    intros [= <-]. rewrite for_each_append_bounds. simpl.
    exists (shape_x + Z.of_nat (tracked_len cols))%Z.
    rewrite !length_app, !repeat_length. repeat split; lia.
Qed.

(** ** The further properties on the scenarios *)


(** X2 on the first scenario. *)
Lemma transform_keeps_rows_witness :
  index_len price_rescaled = index_len price_table /\
  (well_formed price_table -> well_formed price_rescaled).
Proof.
  apply (transform_keeps_rows no_float_repr price_normalizer price_normalizer
           price_table price_rescaled (price_space 10 30)).
  reflexivity.
Defined.

(** X3 on a table with a tracked and an untracked column. *)
Lemma transform_inplace_frame_witness :
  df_columns ab_inplace_a_table = df_columns ab_table /\
  forall c, ~ In c (tracked_columns inplace_a_normalizer) ->
            getitem ab_inplace_a_table c = getitem ab_table c.
Proof.
  apply (transform_inplace_frame no_float_repr inplace_a_normalizer
           inplace_a_normalizer ab_table ab_inplace_a_table two_bounds).
  - reflexivity.
  - reflexivity.
Defined.




(** X7 on two column names. *)
Lemma minmax_names_distinct_witness :
  NoDup (map (minmax_name no_float_repr append_ab_normalizer)
             ["a"%string; "b"%string]).
Proof.
  apply (minmax_names_distinct no_float_repr append_ab_normalizer
           ["a"%string; "b"%string]).
  repeat constructor; simpl.
  - intros [H|[]]. discriminate H.
  - tauto.
Defined.

(** X8: two columns and two dimensions become four. *)
Lemma append_mode_widths_agree_witness :
  df_columns ab_appended_table =
    (df_columns ab_table ++
     map (minmax_name no_float_repr append_ab_normalizer)
         ["a"%string; "b"%string])%list /\
  shape {| shape := [4%Z]; low := [0; 0; 0; 0]%float;
           high := [2; 2; 1; 1]%float |} =
    (2 + Z.of_nat (List.length (df_columns ab_appended_table))
       - Z.of_nat (List.length (df_columns ab_table)))%Z :: [].
Proof.
  apply (append_mode_widths_agree no_float_repr append_ab_normalizer
           append_ab_normalizer ab_table ab_appended_table two_bounds
           {| shape := [4%Z]; low := [0; 0; 0; 0]%float;
              high := [2; 2; 1; 1]%float |}
           ["a"%string; "b"%string] [] 2%Z []).
  - reflexivity.
  - reflexivity.
  - repeat constructor; simpl.
    + intros [H|[]]. discriminate H.
    + tauto.
  - simpl. intros k [<-|[<-|[]]] [H|[H|[]]]; discriminate H.
  - reflexivity.
  - reflexivity.
  - reflexivity.
Defined.


(** X10 on the descriptor of two dimensions, in append mode. *)
Lemma transform_space_keeps_dimension_witness :
  exists shape_x',
    shape {| shape := [4%Z]; low := [0; 0; 0; 0]%float;
             high := [2; 2; 1; 1]%float |} = shape_x' :: [] /\
    Z.of_nat (List.length [0; 0; 0; 0]%float) = shape_x' /\
    Z.of_nat (List.length [2; 2; 1; 1]%float) = shape_x'.
Proof.
  apply (transform_space_keeps_dimension append_ab_normalizer two_bounds
           {| shape := [4%Z]; low := [0; 0; 0; 0]%float;
              high := [2; 2; 1; 1]%float |} [] 2%Z []).
  - reflexivity.
  - reflexivity.
  - reflexivity.
  - reflexivity.
Defined.

(** X11: the first scenario, called twice in place. *)
Lemma transform_again_keeps_columns_witness :
  df_columns price_rescaled_twice = df_columns price_rescaled.
Proof.
  apply (transform_again_keeps_columns no_float_repr price_normalizer
           price_normalizer price_normalizer price_table price_rescaled
           price_rescaled_twice (price_space 10 30) (price_space 10 30)).
  - reflexivity.
  - reflexivity.
Defined.
